(** * The US Census population-projections connector (connector.py)

    A shallow embedding of [schema] and [update] of connector.py, and the
    properties of the sync run that the specification states about them.

    The connector is a Python generator.  A run is modelled as the trace of
    everything the exhausted generator did, in order: the log lines, the HTTP
    requests, and the operations it yielded.  The outside world (the clock and
    the HTTP server) is an explicit argument.

    Conventions.  [response.json()] may return any JSON document, so the
    values the loop handles are of type [json], not only the strings the
    Census API sends.  Python's builtins ([int], [zip], [dict], indexing,
    [dict.get]) are modelled in module [Py] with the exceptions they raise.
    A string is a sequence of characters, one [ascii] each, and [Py.int] is
    exact on ASCII strings only: it refuses every string that holds another
    character, so a statement that a row translates speaks of ASCII numbers,
    and a statement that a row is refused carries the hypothesis
    [ascii_text].  [op.upsert] and [op.checkpoint]
    are taken as the constructors of the operation that is yielded, and the
    log calls as events that never raise. *)

From Stdlib Require Import ZArith String Ascii List Bool Lia.
From Stdlib Require Import Floats.SpecFloat.
From stdpp Require Import base option list gmap strings fin_maps.

Set Warnings "-register-all".

Local Open Scope string_scope.
Local Open Scope list_scope.
Local Open Scope Z_scope.

(** ** Values *)

(** The exceptions the run can meet.  They are all subclasses of Python's
    [Exception], which is what the handler of [update] catches. *)
Inductive exception : Type :=
  | ConnectionError     (* rq.get could not obtain a response *)
  | HTTPError           (* response.raise_for_status() *)
  | JSONDecodeError     (* response.json() on a body that is not JSON *)
  | IndexError
  | KeyError
  | TypeError
  | ValueError
  | OverflowError.

(** What [response.json()] returns: Python's image of a JSON document.  A
    float is kept as the IEEE value it denotes ([spec_float] has the
    infinities and NaN that Python's decoder accepts); an object keeps its
    members in document order. *)
Inductive json : Type :=
  | JNull
  | JBool (b : bool)
  | JInt (n : Z)
  | JFloat (f : spec_float)
  | JStr (s : string)
  | JArr (l : list json)
  | JObj (members : list (string * json)).

(** Evaluation of a Python expression: a value, or a raised exception. *)
Definition result (A : Type) : Type := (exception + A)%type.

Definition ok {A} (a : A) : result A := inr a.
Definition raise {A} (e : exception) : result A := inl e.
Definition and_then {A B} (r : result A) (k : A -> result B) : result B :=
  match r with
  | inl e => inl e
  | inr a => k a
  end.

Declare Scope py_scope.
Delimit Scope py_scope with py.
Notation "x <- r ;; k" := (and_then r (fun x => k))
  (at level 100, r at next level, k at level 200, right associativity)
  : py_scope.

(** ** The builtins the connector calls *)

Module Py.

(** The characters [int] skips around the number in an ASCII string: tab,
    line feed, vertical tab, form feed, carriage return and the space. *)
Definition is_space (c : ascii) : bool :=
  let n := nat_of_ascii c in
  ((9 <=? n) && (n <=? 13) || (n =? 32))%nat.

Fixpoint lstrip (l : list ascii) : list ascii :=
  match l with
  | c :: l' => if is_space c then lstrip l' else l
  | [] => []
  end.

Definition strip (l : list ascii) : list ascii :=
  rev (lstrip (rev (lstrip l))).

Definition digit_value (c : ascii) : option Z :=
  let n := nat_of_ascii c in
  if ((48 <=? n) && (n <=? 57))%nat then Some (Z.of_nat n - 48) else None.

(** Decimal digits, single underscores allowed between two digits.
    [after_underscore] also holds at the start, where an underscore is
    refused as well.  Returns the number read and how many digits it had. *)
Fixpoint digits (after_underscore : bool) (acc : Z) (count : nat)
    (l : list ascii) : option (Z * nat) :=
  match l with
  | [] => if after_underscore then None else Some (acc, count)
  | c :: l' =>
      if Ascii.eqb c "_"%char then
        if after_underscore then None else digits true acc count l'
      else
        match digit_value c with
        | Some d => digits false (10 * acc + d) (S count) l'
        | None => None
        end
  end.

(** The default of [sys.int_max_str_digits]: longer decimal strings are
    refused with a ValueError by the interpreters that have the limit. *)
Definition int_max_str_digits : nat := 4300.

(** [int(s)] for a string, base 10: surrounding whitespace, an optional
    sign, then digits.  This is [int] on ASCII strings; a string with a
    character outside that range is refused here (see [int_accepts_ascii]),
    where Python accepts the decimal digits and the spaces of other
    scripts. *)
Definition int_of_str (s : string) : result Z :=
  let l := strip (list_ascii_of_string s) in
  let '(negative, body) :=
    match l with
    | "-"%char :: r => (true, r)
    | "+"%char :: r => (false, r)
    | _ => (false, l)
    end in
  match digits true 0 0%nat body with
  | Some (n, k) =>
      if (int_max_str_digits <? k)%nat then raise ValueError
      else ok (if negative then - n else n)
  | None => raise ValueError
  end.

(** [int(f)] for a float: truncation toward zero. *)
Definition int_of_float (f : spec_float) : result Z :=
  match f with
  | S754_zero _ => ok 0
  | S754_infinity _ => raise OverflowError
  | S754_nan => raise ValueError
  | S754_finite s m e =>
      let magnitude :=
        if 0 <=? e then Z.shiftl (Z.pos m) e else Z.shiftr (Z.pos m) (- e) in
      ok (if s then - magnitude else magnitude)
  end.

(** [int(v)]. *)
Definition int (v : json) : result Z :=
  match v with
  | JInt n => ok n
  | JBool b => ok (if b then 1 else 0)
  | JFloat f => int_of_float f
  | JStr s => int_of_str s
  | JNull | JArr _ | JObj _ => raise TypeError
  end.

(** [hash(v)] succeeds: lists and dicts are unhashable. *)
Definition hashable (v : json) : bool :=
  match v with
  | JArr _ | JObj _ => false
  | _ => true
  end.

(** The keys of a decoded object, each once, at its first position. *)
Fixpoint dict_keys (seen : list string) (members : list (string * json))
    : list string :=
  match members with
  | [] => []
  | (k, _) :: rest =>
      if bool_decide (k ∈ seen) then dict_keys seen rest
      else k :: dict_keys (k :: seen) rest
  end.

Fixpoint chars (s : string) : list json :=
  match s with
  | EmptyString => []
  | String c s' => JStr (String c EmptyString) :: chars s'
  end.

(** [iter(v)], exhausted: the elements a [for] or a [zip] sees. *)
Definition iter (v : json) : result (list json) :=
  match v with
  | JArr l => ok l
  | JStr s => ok (chars s)
  | JObj members => ok (JStr <$> dict_keys [] members)
  | JNull | JBool _ | JInt _ | JFloat _ => raise TypeError
  end.

(** [v[0]]. *)
Definition item0 (v : json) : result json :=
  match v with
  | JArr (x :: _) => ok x
  | JArr [] => raise IndexError
  | JStr (String c _) => ok (JStr (String c EmptyString))
  | JStr EmptyString => raise IndexError
  | JObj _ => raise KeyError         (* the keys of an object are strings *)
  | JNull | JBool _ | JInt _ | JFloat _ => raise TypeError
  end.

(** [v[1:]]. *)
Definition slice_from1 (v : json) : result json :=
  match v with
  | JArr l => ok (JArr (tail l))
  | JStr s => ok (JStr (match s with String _ s' => s' | EmptyString => EmptyString end))
  | JObj _ | JNull | JBool _ | JInt _ | JFloat _ => raise TypeError
  end.

(** [len(v)] for the values [slice_from1] returns. *)
Definition len (v : json) : nat :=
  match v with
  | JArr l => length l
  | JStr s => String.length s
  | JObj members => length (dict_keys [] members)
  | _ => 0%nat
  end.

(** [zip(a, b)] of two exhausted iterators: stops at the shorter one. *)
Fixpoint zip (a b : list json) : list (json * json) :=
  match a, b with
  | x :: a', y :: b' => (x, y) :: zip a' b'
  | _, _ => []
  end.

(** [dict(pairs)]: every key is hashed.  The dict is kept as the pairs it
    was built from; a later pair with an equal key overrides an earlier
    one, which [dict_get] honours by taking the last match. *)
Definition dict (pairs : list (json * json)) : result (list (json * json)) :=
  if forallb (fun p => hashable (fst p)) pairs then ok pairs
  else raise TypeError.

(** [d.get(key, default)] for a string [key].  A string key is equal to
    no key of another type, so only the pairs keyed by that very string
    are candidates. *)
Fixpoint dict_get (d : list (json * json)) (key : string) (default : json)
    : json :=
  match d with
  | [] => default
  | (JStr k, v) :: d' =>
      if bool_decide (k = key) then dict_get d' key v
      else dict_get d' key default
  | _ :: d' => dict_get d' key default
  end.

(** [table.get(key, default)] for a table keyed by strings and a [key] of
    any type: the key is hashed first, and only a string can be found. *)
Definition table_get (table : gmap string string) (key default : json)
    : result json :=
  match key with
  | JStr k =>
      ok (match table !! k with
          | Some label => JStr label
          | None => default
          end)
  | JArr _ | JObj _ => raise TypeError
  | JNull | JBool _ | JInt _ | JFloat _ => ok default
  end.

End Py.

(** ** The outside world *)

(** datetime.utcnow(): the clock reading, field by field. *)
Record datetime : Type := {
  dt_year : nat;
  dt_month : nat;
  dt_day : nat;
  dt_hour : nat;
  dt_minute : nat;
  dt_second : nat
}.

Definition digit (n : nat) : ascii := ascii_of_nat (48 + n mod 10).

Definition pad2 (n : nat) : string :=
  String (digit (n / 10)) (String (digit n) EmptyString).

Definition pad4 (n : nat) : string :=
  String (digit (n / 1000)) (String (digit (n / 100)) (pad2 n)).

(** [t.strftime("%Y-%m-%dT%H:%M:%SZ")], for the four-digit years a clock
    reads. *)
Definition strftime (t : datetime) : string :=
  pad4 (dt_year t) +:+ "-" +:+ pad2 (dt_month t) +:+ "-" +:+ pad2 (dt_day t)
  +:+ "T" +:+ pad2 (dt_hour t) +:+ ":" +:+ pad2 (dt_minute t) +:+ ":"
  +:+ pad2 (dt_second t) +:+ "Z".

(** What came back from the server: the status line, and what
    [response.json()] makes of the body. *)
Record response : Type := {
  status_code : Z;
  json_body : result json
}.

(** [response.raise_for_status()]: 4xx and 5xx raise. *)
Definition raise_for_status (r : response) : result unit :=
  if (400 <=? status_code r) && (status_code r <? 600) then raise HTTPError
  else ok tt.

(** The world of one run: what the clock reads once [n] requests have been
    sent, and what the [n]-th call of [rq.get] (counted from 0) does when
    asked for [url]: raise, or return a response. *)
Record world : Type := {
  utcnow : nat -> datetime;
  rq_get : nat -> string -> result response
}.

(** ** What the connector emits *)

(** The [data] mapping of an upsert: the six columns. *)
Record row_data : Type := {
  year : Z;
  race : json;
  sex : json;
  age : Z;
  total_pop : Z;
  last_updated : string
}.

Inductive operation : Type :=
  | Upsert (table : string) (data : row_data)
  | Checkpoint (state : gmap string json).

Definition demo_param : Type := list (string * string).

Inductive log_level : Type := FINE | INFO | WARNING.

(** The log lines of [update], with the values interpolated into them. *)
Inductive log_message : Type :=
  | StartingSync
  | RequestingURL (full_url : string)
  | ReceivedRecords (n : nat) (params : demo_param)
  | ErrorProcessing (params : demo_param) (e : exception)
  | TotalRecords (n : nat).

Inductive event : Type :=
  | Log (level : log_level) (message : log_message)
  | Get (n : nat) (url : string)      (* the n-th call of rq.get *)
  | Yield (o : operation).

(** ** The generator *)

(** The mutable part of a run: the local counter of [update], and how many
    requests the process has issued. *)
Record store : Type := {
  total_records : nat;
  requests_sent : nat
}.

(** A piece of the generator's body: from a store, the events it emits, the
    store it leaves, and either its value or the exception that ended it. *)
Definition gen (A : Type) : Type := store -> list event * store * result A.

Module Gen.

Definition ret {A} (a : A) : gen A := fun s => ([], s, ok a).

Definition bind {A B} (m : gen A) (k : A -> gen B) : gen B :=
  fun s =>
    let '(t, s', r) := m s in
    match r with
    | inl e => (t, s', inl e)
    | inr a => let '(t', s'', r') := k a s' in (t ++ t', s'', r')
    end.

Definition emit (ev : event) : gen unit := fun s => ([ev], s, ok tt).

(** An expression evaluated inside the generator. *)
Definition eval {A} (r : result A) : gen A := fun s => ([], s, r).

(** try: body / except Exception as e: handler e. *)
Definition try_except (body : gen unit) (handler : exception -> gen unit)
    : gen unit :=
  fun s =>
    let '(t, s', r) := body s in
    match r with
    | inl e => let '(t', s'', r') := handler e s' in (t ++ t', s'', r')
    | inr _ => (t, s', ok tt)
    end.

(** for x in l: body x *)
Fixpoint for_each {A} (l : list A) (body : A -> gen unit) : gen unit :=
  match l with
  | [] => ret tt
  | x :: l' => bind (body x) (fun _ => for_each l' body)
  end.

Definition get_total_records : gen nat :=
  fun s => ([], s, ok (total_records s)).

Definition set_total_records (n : nat) : gen unit :=
  fun s => ([], {| total_records := n; requests_sent := requests_sent s |}, ok tt).

(** datetime.utcnow(): the clock is read where the run stands. *)
Definition utcnow (w : world) : gen datetime :=
  fun s => ([], s, ok (utcnow w (requests_sent s))).

(** rq.get(url): the request is issued, then the world answers. *)
Definition http_get (w : world) (url : string) : gen response :=
  fun s =>
    ([Get (requests_sent s) url],
     {| total_records := total_records s;
        requests_sent := S (requests_sent s) |},
     rq_get w (requests_sent s) url).

End Gen.

Declare Scope gen_scope.
Delimit Scope gen_scope with gen.
Notation "x <- m ;; k" := (Gen.bind m (fun x => k))
  (at level 100, m at next level, k at level 200, right associativity)
  : gen_scope.
Notation "m ;; k" := (Gen.bind m (fun _ => k))
  (at level 100, k at level 200, right associativity) : gen_scope.

Definition log (level : log_level) (message : log_message) : gen unit :=
  Gen.emit (Log level message).

Definition yield (o : operation) : gen unit := Gen.emit (Yield o).

(** ** connector.py *)

Record table_schema : Type := {
  table : string;
  primary_key : list string;
  columns : list (string * string)
}.

(** def schema(configuration), lines 12-26. *)
Definition schema (configuration : gmap string json) : list table_schema :=
  [ {| table := "population_projections";
       primary_key := ["year"; "race"; "sex"; "age"];
       columns := [ ("year", "INT"); ("race", "STRING"); ("sex", "STRING");
                    ("age", "INT"); ("total_pop", "INT");
                    ("last_updated", "UTC_DATETIME") ] |} ].

Definition api_key : string := "ac259f7342449a3fcc5b1cfbed52e87e6adfde60".

(** Line 37: state.get('last_updated', '2000-01-01T00:00:00Z'). *)
Definition last_updated_cursor (state : gmap string json) : json :=
  default (JStr "2000-01-01T00:00:00Z") (state !! "last_updated").

(** Line 40: datetime.utcnow().strftime("%Y-%m-%dT%H:%M:%SZ"), as a run
    that starts from [fresh] evaluates it: before any request. *)
Definition current_time (w : world) : string := strftime (utcnow w 0%nat).

(** Lines 44-53.  Each dict literal is kept as its items, in order. *)
Definition demo_params : list demo_param :=
  [ [("YEAR", "1"); ("ORIGIN", "1"); ("RACE", "1"); ("SEX", "1"); ("AGE", "1")];
    [("YEAR", "1"); ("ORIGIN", "1"); ("RACE", "2"); ("SEX", "1"); ("AGE", "1")];
    [("YEAR", "1"); ("ORIGIN", "1"); ("RACE", "3"); ("SEX", "1"); ("AGE", "1")];
    [("YEAR", "1"); ("ORIGIN", "1"); ("RACE", "4"); ("SEX", "1"); ("AGE", "1")];
    [("YEAR", "1"); ("ORIGIN", "1"); ("RACE", "5"); ("SEX", "1"); ("AGE", "1")];
    [("YEAR", "1"); ("ORIGIN", "1"); ("RACE", "6"); ("SEX", "1"); ("AGE", "1")];
    [("YEAR", "1"); ("ORIGIN", "2"); ("RACE", "1"); ("SEX", "1"); ("AGE", "1")];
    [("YEAR", "1"); ("ORIGIN", "2"); ("RACE", "2"); ("SEX", "1"); ("AGE", "1")] ].

Definition base_url : string := "https://api.census.gov/data/2017/popproj/pop".

(** Lines 61-65.  The loop that would append "&key=value" for the items of
    [params] is commented out in the source: the query string is the fixed
    prefix. *)
Definition query_params (params : demo_param) : string :=
  "?get=POP,YEAR,RACE,SEX,AGE&for=us:*&key=" +:+ api_key.

Definition full_url (params : demo_param) : string :=
  base_url +:+ query_params params.

(** Lines 96-100: the two tables and the lookups that fall back on the
    code itself. *)
Definition race_map : gmap string string :=
  list_to_map [ ("1", "White"); ("2", "Black"); ("3", "AIAN"); ("4", "Asian");
                ("5", "NHPI"); ("6", "Two or More Races") ].

Definition sex_map : gmap string string :=
  list_to_map [ ("1", "Male"); ("2", "Female") ].

Definition race_str (race : json) : result json := Py.table_get race_map race race.
Definition sex_str (sex : json) : result json := Py.table_get sex_map sex sex.

(** Line 86: row_dict = dict(zip(headers, row)). *)
Definition row_dict (headers row : json) : result (list (json * json)) :=
  (hs <- Py.iter headers ;;
   rs <- Py.iter row ;;
   Py.dict (Py.zip hs rs))%py.

(** Lines 86-112, the body of the loop over the rows up to the [yield]: the
    mapping that is upserted for [row], or the exception met on the way. *)
Definition translate_row (now : string) (headers row : json) : result row_data :=
  (d <- row_dict headers row ;;
   year <- Py.int (Py.dict_get d "YEAR" (JInt 0)) ;;
   let race := Py.dict_get d "RACE" (JStr "") in
   let sex := Py.dict_get d "SEX" (JStr "") in
   age <- Py.int (Py.dict_get d "AGE" (JInt 0)) ;;
   pop <- Py.int (Py.dict_get d "POP" (JInt 0)) ;;
   race_str <- race_str race ;;
   sex_str <- sex_str sex ;;
   ok {| year := year; race := race_str; sex := sex_str; age := age;
         total_pop := pop; last_updated := now |})%py.

(** Line 115: total_records += 1. *)
Definition incr_total_records : gen unit :=
  fun s =>
    ([], {| total_records := S (total_records s);
            requests_sent := requests_sent s |}, ok tt).

(** Lines 84-115: the whole body of [for row in rows]. *)
Definition row_body (now : string) (headers row : json) : gen unit :=
  (data <- Gen.eval (translate_row now headers row) ;;
   yield (Upsert "population_projections" data) ;;
   incr_total_records)%gen.

(** Lines 59-115: the body of the [try] for one parameter set. *)
Definition fetch_and_translate (w : world) (now : string) (params : demo_param)
    : gen unit :=
  (log FINE (RequestingURL (full_url params)) ;;
   response <- Gen.http_get w (full_url params) ;;
   Gen.eval (raise_for_status response) ;;
   data <- Gen.eval (json_body response) ;;
   headers <- Gen.eval (Py.item0 data) ;;
   rows <- Gen.eval (Py.slice_from1 data) ;;
   log INFO (ReceivedRecords (Py.len rows) params) ;;
   each_row <- Gen.eval (Py.iter rows) ;;
   Gen.for_each each_row (row_body now headers))%gen.

(** Lines 117-118: except Exception as e: log.warning(...). *)
Definition handler (params : demo_param) (e : exception) : gen unit :=
  log WARNING (ErrorProcessing params e).

(** Lines 57-118: one turn of the loop over [demo_params]. *)
Definition params_body (w : world) (now : string) (params : demo_param)
    : gen unit :=
  Gen.try_except (fetch_and_translate w now params) (handler params).

(** def update(configuration, state), lines 29-125. *)
Definition update (configuration state : gmap string json) (w : world)
    : gen unit :=
  (log INFO StartingSync ;;
   let last_updated_cursor := last_updated_cursor state in
   t <- Gen.utcnow w ;;
   let current_time := strftime t in
   Gen.set_total_records 0 ;;
   Gen.for_each demo_params (params_body w current_time) ;;
   total <- Gen.get_total_records ;;
   log INFO (TotalRecords total) ;;
   yield (Checkpoint {[ "last_updated" := JStr current_time ]}))%gen.

(** ** A sync run *)

Definition fresh : store := {| total_records := 0; requests_sent := 0 |}.

(** The generator run to exhaustion: its trace, and how it ended. *)
Definition sync (configuration state : gmap string json) (w : world)
    : list event * result unit :=
  let '(t, _, r) := update configuration state w fresh in (t, r).

Definition trace (configuration state : gmap string json) (w : world)
    : list event :=
  (sync configuration state w).1.

(** The operations yielded, the mappings upserted and the URLs requested
    along a trace. *)
Definition yielded (t : list event) : list operation :=
  omap (fun ev => match ev with Yield o => Some o | _ => None end) t.

Definition upserts (t : list event) : list row_data :=
  omap (fun ev => match ev with Yield (Upsert _ d) => Some d | _ => None end) t.

Definition requested (t : list event) : list string :=
  omap (fun ev => match ev with Get _ url => Some url | _ => None end) t.

(** The (year, race, sex, age) of a mapping.  Two keys that are equal here
    are equal in Python; Python also holds 1, True and 1.0 equal, so keys
    that differ here are not used as evidence that they differ there. *)
Definition natural_key (d : row_data) : Z * json * json * Z :=
  (year d, race d, sex d, age d).

(** The run of one parameter set, when it is the [i]-th request of the
    process: its trace and whether an exception reached the handler. *)
Definition params_run (w : world) (now : string) (i : nat)
    (params : demo_param) : list event * result unit :=
  let '(t, _, r) :=
    fetch_and_translate w now params
      {| total_records := 0; requests_sent := i |} in
  (t, r).

(** The trace of one turn of the loop over [demo_params]: the run of the
    parameter set, then the warning if an exception reached the handler. *)
Definition params_trace (w : world) (now : string) (i : nat)
    (params : demo_param) : list event :=
  let '(t, r) := params_run w now i params in
  match r with
  | inl e => t ++ [Log WARNING (ErrorProcessing params e)]
  | inr _ => t
  end.

(** The rows translated before the first one that raises, and that
    exception if there is one. *)
Fixpoint translate_rows (now : string) (headers : json) (rows : list json)
    : list row_data * result unit :=
  match rows with
  | [] => ([], ok tt)
  | row :: rest =>
      match translate_row now headers row with
      | inl e => ([], inl e)
      | inr d =>
          let '(ds, r) := translate_rows now headers rest in (d :: ds, r)
      end
  end.

Definition upsert_event (d : row_data) : event :=
  Yield (Upsert "population_projections" d).

(** The traces of the turns of the loop, one after the other, when the
    first of them sends request number [first]. *)
Definition turns (w : world) (now : string) (first : nat)
    (ps : list demo_param) : list (list event) :=
  imap (fun k p => params_trace w now (first + k) p) ps.

(** The header and the data rows a response carries, when the try body gets
    as far as the loop over the rows. *)
Definition response_rows (r : result response) : result (json * list json) :=
  (resp <- r ;;
   checked <- raise_for_status resp ;;
   data <- json_body resp ;;
   headers <- Py.item0 data ;;
   rows <- Py.slice_from1 data ;;
   each_row <- Py.iter rows ;;
   ok (headers, each_row))%py.

(** The mappings upserted for a response: those of its rows, up to the first
    row that raises. *)
Definition response_upserts (now : string) (r : result response)
    : list row_data :=
  match response_rows r with
  | inl _ => []
  | inr (headers, each_row) => (translate_rows now headers each_row).1
  end.

(** The upserts of the [i]-th parameter set of a run in world [w]. *)
Definition upserts_of (w : world) (i : nat) (params : demo_param)
    : list row_data :=
  response_upserts (current_time w) (rq_get w i (full_url params)).

(** ** Rows that translate *)

Definition is_ok {A} (r : result A) : bool :=
  match r with
  | inr _ => true
  | inl _ => false
  end.

(** A data row translates when the header cells it is paired with are
    hashable, its YEAR, AGE and POP (or their default) convert with [int],
    and its RACE and SEX (or their default) are hashable. *)
Definition convertible (headers row : list json) : bool :=
  let d := Py.zip headers row in
  forallb (fun p => Py.hashable (fst p)) d
  && is_ok (Py.int (Py.dict_get d "YEAR" (JInt 0)))
  && is_ok (Py.int (Py.dict_get d "AGE" (JInt 0)))
  && is_ok (Py.int (Py.dict_get d "POP" (JInt 0)))
  && Py.hashable (Py.dict_get d "RACE" (JStr ""))
  && Py.hashable (Py.dict_get d "SEX" (JStr "")).

Definition is_array (v : json) : bool :=
  match v with
  | JArr _ => true
  | _ => false
  end.

(** ** Sample worlds *)

(** A clock that advances by a second with every request. *)
Definition ticking (n : nat) : datetime :=
  {| dt_year := 2024; dt_month := 3; dt_day := 9;
     dt_hour := 12; dt_minute := 0; dt_second := n |}.

Definition respond (status : Z) (data : json) : result response :=
  ok {| status_code := status; json_body := ok data |}.

Definition census_sample : json :=
  JArr [ JArr [JStr "POP"; JStr "YEAR"; JStr "RACE"; JStr "SEX"; JStr "AGE"; JStr "us"];
         JArr [JStr "1994"; JStr "2017"; JStr "2"; JStr "1"; JStr "0"; JStr "1"];
         JArr [JStr "1876"; JStr "2017"; JStr "9"; JStr "2"; JStr "0"; JStr "1"] ].

(** A server that answers every request alike. *)
Definition steady (clock : nat -> datetime) (answer : string -> result response)
    : world :=
  {| utcnow := clock; rq_get := fun _ url => answer url |}.

(** All requests are served [census_sample]. *)
Definition served : world := steady ticking (fun _ => respond 200 census_sample).

(** The third request meets a 500, the others are served. *)
Definition one_failure : world :=
  {| utcnow := ticking;
     rq_get := fun n _ =>
       if (n =? 2)%nat then respond 500 JNull else respond 200 census_sample |}.

(** Every request fails. *)
Definition offline : world := steady ticking (fun _ => raise ConnectionError).

(** A short census row whose RACE value is an array. *)
Definition census_headers : list json :=
  [JStr "POP"; JStr "YEAR"; JStr "RACE"; JStr "SEX"; JStr "AGE"].

Definition short_row_with_array : list json :=
  [JStr "1994"; JStr "2017"; JArr [JStr "2"]].

(** A short census row of strings: SEX and AGE are missing. *)
Definition short_row : list json := [JStr "1994"; JStr "2017"; JStr "2"].

(** Data whose one row has a YEAR that is no number. *)
Definition unparsable_year : json :=
  JArr [ JArr [JStr "YEAR"]; JArr [JStr "abc"] ].

(** A data row is an array that translates under the header cells. *)
Definition translates (headers : list json) (row : json) : bool :=
  match row with
  | JArr cells => convertible headers cells
  | _ => false
  end.

(** ** Further observations of a trace, and further samples *)

(** The warnings logged along a trace: the parameter set and the exception
    of each. *)
Definition warnings (t : list event) : list (demo_param * exception) :=
  omap (fun ev => match ev with
                  | Log WARNING (ErrorProcessing p e) => Some (p, e)
                  | _ => None
                  end) t.

(** The mapping of a row in which none of the five columns was found. *)
Definition default_row (now : string) : row_data :=
  {| year := 0; race := JStr ""; sex := JStr ""; age := 0; total_pop := 0;
     last_updated := now |}.

(** A character of the ASCII range, and a value whose text, if it is a
    string, lies in that range. *)
Definition is_ascii (c : ascii) : bool := (nat_of_ascii c <? 128)%nat.

Definition ascii_text (v : json) : bool :=
  match v with
  | JStr s => forallb is_ascii (list_ascii_of_string s)
  | _ => true
  end.

Definition is_str (v : json) : bool :=
  match v with
  | JStr _ => true
  | _ => false
  end.

(** The five column names the loop looks up. *)
Definition looked_up : list string := ["YEAR"; "RACE"; "SEX"; "AGE"; "POP"].

(** Data whose second row has a YEAR that is no number. *)
Definition partly_bad : json :=
  JArr [ JArr [JStr "YEAR"]; JArr [JStr "2017"]; JArr [JStr "abc"];
         JArr [JStr "2018"] ].

(** * Properties *)

(** ** Traces *)

Lemma upserts_app (t t' : list event) :
  upserts (t ++ t') = upserts t ++ upserts t'.
Proof. apply omap_app. Qed.

Lemma yielded_app (t t' : list event) :
  yielded (t ++ t') = yielded t ++ yielded t'.
Proof. apply omap_app. Qed.

Lemma requested_app (t t' : list event) :
  requested (t ++ t') = requested t ++ requested t'.
Proof. apply omap_app. Qed.

Lemma upserts_upsert_events (ds : list row_data) :
  upserts (upsert_event <$> ds) = ds.
Proof.
  induction ds as [|d ds IH]; [done|].
  unfold upserts in *. cbn in *. by f_equal.
Qed.

Lemma requested_upsert_events (ds : list row_data) :
  requested (upsert_event <$> ds) = [].
Proof. induction ds as [|d ds IH]; [done|]. unfold requested in *. by cbn in *. Qed.

Lemma upserts_concat (ts : list (list event)) :
  upserts (concat ts) = concat (upserts <$> ts).
Proof.
  induction ts as [|t ts IH]; [done|].
  cbn [concat fmap list_fmap]. by rewrite upserts_app, IH.
Qed.

Lemma requested_concat (ts : list (list event)) :
  requested (concat ts) = concat (requested <$> ts).
Proof.
  induction ts as [|t ts IH]; [done|].
  cbn [concat fmap list_fmap]. by rewrite requested_app, IH.
Qed.

(** ** The loop over the rows *)

Section Rows.
Variable now : string.
Variable headers : json.

(** The loop yields one upsert per translated row, counts them, and stops
    at the first row that raises. *)
Lemma rows_loop (rows : list json) (s : store) :
  Gen.for_each rows (row_body now headers) s =
    (upsert_event <$> (translate_rows now headers rows).1,
     {| total_records :=
          total_records s + length (translate_rows now headers rows).1;
        requests_sent := requests_sent s |},
     (translate_rows now headers rows).2).
Proof.
  revert s. induction rows as [|row rest IH]; intros [n k].
  - cbn. by rewrite Nat.add_0_r.
  - cbn [Gen.for_each translate_rows]. unfold Gen.bind at 1.
    unfold row_body at 1, Gen.bind, Gen.eval, yield, Gen.emit,
      incr_total_records.
    destruct (translate_row now headers row) as [e|d].
    + cbn. by rewrite Nat.add_0_r.
    + unfold ok. cbn. rewrite IH.
      destruct (translate_rows now headers rest) as [ds r].
      cbn. do 3 f_equal. lia.
Qed.

(** When every row translates, every row is upserted. *)
Lemma translate_rows_all_ok (rows : list json) :
  Forall (fun row => is_ok (translate_row now headers row) = true) rows ->
  length (translate_rows now headers rows).1 = length rows
  /\ (translate_rows now headers rows).2 = ok tt.
Proof.
  induction 1 as [|row rest Hd _ [IHl IHr]]; [done|].
  cbn. destruct (translate_row now headers row) as [e|d']; [done|].
  destruct (translate_rows now headers rest) as [ds r]. cbn in *.
  by rewrite IHl, IHr.
Qed.

Lemma translate_rows_last_updated (rows : list json) :
  Forall (fun d => last_updated d = now) (translate_rows now headers rows).1.
Proof.
  induction rows as [|row rest IH]; cbn; [constructor|].
  destruct (translate_row now headers row) as [e|d] eqn:Hd; [constructor|].
  destruct (translate_rows now headers rest) as [ds r]. cbn in *.
  constructor; [|done].
  unfold translate_row, and_then in Hd.
  repeat match type of Hd with
         | match ?x with _ => _ end = _ => destruct x; try discriminate
         end.
  by inversion Hd.
Qed.

End Rows.

(** ** One parameter set, and the loop over them *)

Arguments full_url : simpl never.
Arguments turns : simpl never.

Section Run.
Variable w : world.
Variable now : string.

(** The try body started in any store behaves as [params_run] says: same
    trace, same outcome, one request sent, the upserts counted. *)
Lemma fetch_and_translate_run (p : demo_param) (s : store) :
  fetch_and_translate w now p s =
    ((params_run w now (requests_sent s) p).1,
     {| total_records :=
          total_records s
          + length (upserts (params_run w now (requests_sent s) p).1);
        requests_sent := S (requests_sent s) |},
     (params_run w now (requests_sent s) p).2).
Proof.
  destruct s as [n k].
  unfold params_run, fetch_and_translate, Gen.bind, Gen.http_get, Gen.eval,
    log, Gen.emit.
  cbn [total_records requests_sent].
  destruct (rq_get w k (full_url p)) as [e|resp];
    [cbn; by rewrite Nat.add_0_r|].
  destruct (raise_for_status resp) as [e|[]];
    [cbn; by rewrite Nat.add_0_r|].
  destruct (json_body resp) as [e|data];
    [cbn; by rewrite Nat.add_0_r|].
  destruct (Py.item0 data) as [e|headers];
    [cbn; by rewrite Nat.add_0_r|].
  destruct (Py.slice_from1 data) as [e|rows];
    [cbn; by rewrite Nat.add_0_r|].
  destruct (Py.iter rows) as [e|each_row];
    [cbn; by rewrite Nat.add_0_r|].
  rewrite !rows_loop. cbn.
  by rewrite upserts_upsert_events.
Qed.

(** A turn of the loop never raises: the handler turns the exception into
    a warning. *)
Lemma params_body_run (p : demo_param) (s : store) :
  params_body w now p s =
    (params_trace w now (requests_sent s) p,
     {| total_records :=
          total_records s
          + length (upserts (params_trace w now (requests_sent s) p));
        requests_sent := S (requests_sent s) |},
     ok tt).
Proof.
  unfold params_body, Gen.try_except, params_trace.
  rewrite fetch_and_translate_run.
  destruct (params_run w now (requests_sent s) p) as [t [e|[]]]; cbn.
  - rewrite upserts_app. cbn. by rewrite !app_nil_r.
  - done.
Qed.

Lemma turns_cons (first : nat) (p : demo_param) (ps : list demo_param) :
  turns w now first (p :: ps)
  = params_trace w now first p :: turns w now (S first) ps.
Proof.
  unfold turns. cbn [imap]. rewrite Nat.add_0_r. f_equal.
  apply imap_ext. intros k q _. cbn. f_equal. lia.
Qed.

Lemma params_loop (ps : list demo_param) (s : store) :
  Gen.for_each ps (params_body w now) s =
    (concat (turns w now (requests_sent s) ps),
     {| total_records :=
          total_records s
          + length (upserts (concat (turns w now (requests_sent s) ps)));
        requests_sent := requests_sent s + length ps |},
     ok tt).
Proof.
  revert s. induction ps as [|p ps IH]; intros s.
  - destruct s. cbn. by rewrite !Nat.add_0_r.
  - cbn [Gen.for_each]. unfold Gen.bind. rewrite params_body_run.
    rewrite IH. cbn [total_records requests_sent].
    rewrite turns_cons. cbn [concat length]. rewrite upserts_app, length_app.
    do 3 f_equal; lia.
Qed.

End Run.

(** The whole run: the start line, the eight turns, the total and the
    checkpoint; no exception leaves [update]. *)
Theorem sync_run (configuration state : gmap string json) (w : world) :
  sync configuration state w =
    (Log INFO StartingSync
     :: concat (turns w (current_time w) 0 demo_params)
     ++ [ Log INFO
            (TotalRecords
               (length (upserts (concat (turns w (current_time w) 0
                                           demo_params)))));
          Yield (Checkpoint {[ "last_updated" := JStr (current_time w) ]}) ],
     ok tt).
Proof.
  unfold sync, update.
  unfold Gen.bind at 1. unfold log at 1, Gen.emit at 1.
  unfold Gen.bind at 1. unfold Gen.utcnow at 1.
  unfold Gen.bind at 1. unfold Gen.set_total_records at 1.
  unfold Gen.bind at 1. unfold ok. cbv beta iota.
  rewrite params_loop. unfold current_time.
  by cbn -[demo_params turns upserts concat].
Qed.

(** ** What a response contributes *)

Section Contribution.
Variable w : world.
Variable now : string.

Lemma upserts_params_run (i : nat) (p : demo_param) :
  upserts (params_run w now i p).1
  = response_upserts now (rq_get w i (full_url p)).
Proof.
  unfold params_run, response_upserts, response_rows, fetch_and_translate,
    Gen.bind, Gen.http_get, Gen.eval, log, Gen.emit, and_then.
  cbn [total_records requests_sent].
  destruct (rq_get w i (full_url p)) as [e|resp]; [done|].
  destruct (raise_for_status resp) as [e|[]]; [done|].
  destruct (json_body resp) as [e|data]; [done|].
  destruct (Py.item0 data) as [e|headers]; [done|].
  destruct (Py.slice_from1 data) as [e|rows]; [done|].
  destruct (Py.iter rows) as [e|each_row]; [done|].
  rewrite rows_loop. cbn. apply upserts_upsert_events.
Qed.

Lemma requested_params_run (i : nat) (p : demo_param) :
  requested (params_run w now i p).1 = [full_url p].
Proof.
  unfold params_run, fetch_and_translate,
    Gen.bind, Gen.http_get, Gen.eval, log, Gen.emit.
  cbn [total_records requests_sent].
  destruct (rq_get w i (full_url p)) as [e|resp]; [done|].
  destruct (raise_for_status resp) as [e|[]]; [done|].
  destruct (json_body resp) as [e|data]; [done|].
  destruct (Py.item0 data) as [e|headers]; [done|].
  destruct (Py.slice_from1 data) as [e|rows]; [done|].
  destruct (Py.iter rows) as [e|each_row]; [done|].
  rewrite rows_loop. cbn. unfold requested. cbn. f_equal.
  apply requested_upsert_events.
Qed.

(** The warning of the handler is no upsert and no request. *)
Lemma upserts_params_trace (i : nat) (p : demo_param) :
  upserts (params_trace w now i p)
  = response_upserts now (rq_get w i (full_url p)).
Proof.
  rewrite <- upserts_params_run. unfold params_trace.
  destruct (params_run w now i p) as [t [e|[]]]; [|done].
  rewrite upserts_app. cbn. apply app_nil_r.
Qed.

Lemma requested_params_trace (i : nat) (p : demo_param) :
  requested (params_trace w now i p) = [full_url p].
Proof.
  rewrite <- (requested_params_run i p). unfold params_trace.
  destruct (params_run w now i p) as [t [e|[]]]; [|done].
  rewrite requested_app. cbn. apply app_nil_r.
Qed.

(** The try body ends as the response decides: with the exception that
    kept it from the rows, or with that of the first row that raises. *)
Lemma outcome_params_run (i : nat) (p : demo_param) :
  (params_run w now i p).2
  = match response_rows (rq_get w i (full_url p)) with
    | inl e => inl e
    | inr (headers, each_row) => (translate_rows now headers each_row).2
    end.
Proof.
  unfold params_run, response_rows, fetch_and_translate,
    Gen.bind, Gen.http_get, Gen.eval, log, Gen.emit, and_then.
  cbn [total_records requests_sent].
  destruct (rq_get w i (full_url p)) as [e|resp]; [done|].
  destruct (raise_for_status resp) as [e|[]]; [done|].
  destruct (json_body resp) as [e|data]; [done|].
  destruct (Py.item0 data) as [e|headers]; [done|].
  destruct (Py.slice_from1 data) as [e|rows]; [done|].
  destruct (Py.iter rows) as [e|each_row]; [done|].
  rewrite rows_loop. by cbn.
Qed.

Lemma response_upserts_last_updated (r : result response) :
  Forall (fun d => last_updated d = now) (response_upserts now r).
Proof.
  unfold response_upserts.
  destruct (response_rows r) as [e|[headers each_row]]; [constructor|].
  apply translate_rows_last_updated.
Qed.

End Contribution.

(** The upserts of a run are those of its eight responses, in order,
    whatever happened to the other parameter sets. *)
Theorem upserts_trace (configuration state : gmap string json) (w : world) :
  upserts (trace configuration state w) = concat (imap (upserts_of w) demo_params).
Proof.
  unfold trace. rewrite sync_run. cbn [fst].
  change (upserts (?e :: ?t)) with (upserts ([e] ++ t)).
  rewrite !upserts_app, upserts_concat. cbn [upserts omap list_omap].
  rewrite app_nil_r. cbn [app]. f_equal.
  unfold turns. rewrite fmap_imap. apply imap_ext. intros i p _.
  cbn. apply upserts_params_trace.
Qed.

Theorem requested_trace (configuration state : gmap string json) (w : world) :
  requested (trace configuration state w) = full_url <$> demo_params.
Proof.
  unfold trace. rewrite sync_run. cbn [fst].
  change (requested (?e :: ?t)) with (requested ([e] ++ t)).
  rewrite !requested_app, requested_concat. cbn [requested omap list_omap].
  rewrite app_nil_r. cbn [app].
  unfold turns. rewrite fmap_imap.
  erewrite imap_ext; [|intros i p _; cbn; apply requested_params_trace].
  generalize demo_params. intros ps.
  change (fun (_ : nat) (p : demo_param) => [full_url p])
    with (@const (demo_param -> list string) nat (fun p => [full_url p])).
  rewrite imap_const. induction ps as [|p ps IH]; [done|].
  cbn. by f_equal.
Qed.

(** The operations a run yields: the upserts, all into the one table, then
    the checkpoint. *)
Lemma yielded_upsert_events (ds : list row_data) :
  yielded (upsert_event <$> ds) = Upsert "population_projections" <$> ds.
Proof.
  induction ds as [|d ds IH]; [done|].
  unfold yielded in *. cbn in *. by f_equal.
Qed.

Lemma yielded_params_trace (w : world) (now : string) (i : nat)
    (p : demo_param) :
  yielded (params_trace w now i p)
  = Upsert "population_projections" <$> upserts (params_trace w now i p).
Proof.
  unfold params_trace, params_run, fetch_and_translate,
    Gen.bind, Gen.http_get, Gen.eval, log, Gen.emit.
  cbn [total_records requests_sent].
  destruct (rq_get w i (full_url p)) as [e|resp]; [done|].
  destruct (raise_for_status resp) as [e|[]]; [done|].
  destruct (json_body resp) as [e|data]; [done|].
  destruct (Py.item0 data) as [e|headers]; [done|].
  destruct (Py.slice_from1 data) as [e|rows]; [done|].
  destruct (Py.iter rows) as [e|each_row]; [done|].
  rewrite rows_loop.
  destruct (translate_rows now headers each_row) as [ds [e|[]]];
    cbn -[yielded upserts fmap];
    change (?a :: ?b :: ?c :: ?t) with ([a; b; c] ++ t);
    rewrite !yielded_app, !upserts_app, yielded_upsert_events,
      upserts_upsert_events; cbn; by rewrite ?app_nil_r.
Qed.

Lemma yielded_turns (w : world) (now : string) (first : nat)
    (ps : list demo_param) :
  yielded (concat (turns w now first ps))
  = Upsert "population_projections" <$> upserts (concat (turns w now first ps)).
Proof.
  revert first. induction ps as [|p ps IH]; intros first; [done|].
  rewrite turns_cons. cbn [concat].
  by rewrite yielded_app, upserts_app, fmap_app, IH, yielded_params_trace.
Qed.

Theorem yielded_trace (configuration state : gmap string json) (w : world) :
  yielded (trace configuration state w)
  = (Upsert "population_projections" <$> upserts (trace configuration state w))
    ++ [Checkpoint {[ "last_updated" := JStr (current_time w) ]}].
Proof.
  unfold trace. rewrite sync_run. cbn [fst].
  change (?e :: ?t ++ ?u) with ([e] ++ t ++ u).
  rewrite !yielded_app, !upserts_app, yielded_turns.
  cbn -[turns demo_params]. by rewrite app_nil_r.
Qed.

Lemma last_trace (configuration state : gmap string json) (w : world) :
  last (trace configuration state w)
  = Some (Yield (Checkpoint {[ "last_updated" := JStr (current_time w) ]})).
Proof.
  unfold trace. rewrite sync_run. cbn [fst].
  change (?e :: ?t ++ [?a; ?b]) with ([e] ++ t ++ [a] ++ [b]).
  rewrite !app_assoc. apply last_snoc.
Qed.

Lemma upserts_of_params_run (w : world) (i : nat) (p : demo_param) :
  upserts_of w i p = upserts (params_run w (current_time w) i p).1.
Proof. unfold upserts_of. by rewrite upserts_params_run. Qed.

Lemma elem_of_concat {A} (x : A) (l : list A) (ls : list (list A)) :
  x ∈ l -> l ∈ ls -> x ∈ concat ls.
Proof.
  rewrite !list_elem_of_In. intros Hx Hl. apply in_concat. eauto.
Qed.

(** ** The timestamp and the checkpoint *)

(** C8: every upsert yielded in one call of update carries the same
    last_updated value; it is the clock reading taken once at the start of
    the run, however the clock moves afterwards, and it is also the value
    written into the checkpoint of the run. *)
Theorem C8_uniform_last_updated (configuration state : gmap string json)
    (w : world) :
  current_time w = strftime (utcnow w 0%nat)
  /\ Forall (fun d => last_updated d = current_time w)
       (upserts (trace configuration state w))
  /\ (forall d1 d2,
        d1 ∈ upserts (trace configuration state w) ->
        d2 ∈ upserts (trace configuration state w) ->
        last_updated d1 = last_updated d2)
  /\ last (yielded (trace configuration state w))
     = Some (Checkpoint {[ "last_updated" := JStr (current_time w) ]}).
Proof.
  assert (Hall : Forall (fun d => last_updated d = current_time w)
                   (upserts (trace configuration state w))).
  { rewrite upserts_trace. apply Forall_concat, Forall_forall.
    intros l [i [p [-> _]]]%elem_of_lookup_imap.
    apply response_upserts_last_updated. }
  split; [done|]. split; [done|]. split.
  - rewrite Forall_forall in Hall. intros d1 d2 H1 H2.
    by rewrite (Hall d1 H1), (Hall d2 H2).
  - rewrite yielded_trace. apply last_snoc.
Qed.

(** C4: a state without the key 'last_updated' gives the cursor its default
    "2000-01-01T00:00:00Z"; and for every state and every world, whatever
    fails, the run ends by yielding a checkpoint whose last_updated is the
    time read at the start of the run, whatever the cursor was. *)
Theorem C4_cursor_default_and_checkpoint (configuration state : gmap string json)
    (w : world) :
  (state !! "last_updated" = None ->
   last_updated_cursor state = JStr "2000-01-01T00:00:00Z")
  /\ (sync configuration state w).2 = ok tt
  /\ last (trace configuration state w)
     = Some (Yield (Checkpoint {[ "last_updated" := JStr (current_time w) ]}))
  /\ forall checkpoint_state,
       last (trace configuration state w) = Some (Yield (Checkpoint checkpoint_state)) ->
       checkpoint_state !! "last_updated" = Some (JStr (strftime (utcnow w 0%nat))).
Proof.
  split; [|split; [|split]].
  - intros H. unfold last_updated_cursor. by rewrite H.
  - by rewrite sync_run.
  - apply last_trace.
  - intros cs. rewrite last_trace. intros [= <-].
    apply lookup_singleton_eq.
Qed.

Lemma C4_cursor_default_and_checkpoint_witness :
  last_updated_cursor ∅ = JStr "2000-01-01T00:00:00Z"
  /\ last (trace ∅ ∅ offline)
     = Some (Yield (Checkpoint {[ "last_updated" := JStr "2024-03-09T12:00:00Z" ]})).
Proof.
  destruct (C4_cursor_default_and_checkpoint ∅ ∅ offline) as (H1 & _ & H3 & _).
  split; [apply H1; reflexivity | exact H3].
Defined.

(** C9: the input state does not influence the run: in the same world (the
    same HTTP answers, the same clock) two input states give the same trace,
    hence the same upserts in the same order and the same checkpoint. *)
Theorem C9_state_is_not_used (configuration : gmap string json)
    (state1 state2 : gmap string json) (w : world) :
  sync configuration state1 w = sync configuration state2 w
  /\ upserts (trace configuration state1 w) = upserts (trace configuration state2 w)
  /\ yielded (trace configuration state1 w) = yielded (trace configuration state2 w)
  /\ requested (trace configuration state1 w) = requested (trace configuration state2 w).
Proof.
  assert (H : sync configuration state1 w = sync configuration state2 w)
    by (by rewrite !sync_run).
  unfold trace. by rewrite H.
Qed.

(** ** The requests *)

(** C5: the request URL is one fixed string for each of the 8 parameter
    sets: [full_url] ignores its argument, so the run asks for that URL eight
    times and nothing of [demo_params] reaches the query string.  A server
    that answers by the URL therefore returns the same data to all eight
    turns, and the run upserts that data eight times over. *)
Theorem C5_same_url_for_every_parameter_set :
  length demo_params = 8%nat
  /\ (forall params : demo_param,
        full_url params
        = "https://api.census.gov/data/2017/popproj/pop?get=POP,YEAR,RACE,SEX,AGE&for=us:*&key=ac259f7342449a3fcc5b1cfbed52e87e6adfde60")
  /\ (forall (configuration state : gmap string json) (w : world),
        requested (trace configuration state w)
        = replicate 8 (full_url []))
  /\ (forall (configuration state : gmap string json)
        (clock : nat -> datetime) (answer : string -> result response),
        upserts (trace configuration state (steady clock answer))
        = concat (replicate 8
            (upserts (params_run (steady clock answer) (strftime (clock 0%nat))
                        0 []).1))).
Proof.
  split; [reflexivity|]. split; [reflexivity|]. split.
  - intros configuration state w. rewrite requested_trace. reflexivity.
  - intros configuration state clock answer.
    rewrite upserts_trace, upserts_params_run. reflexivity.
Qed.

(** ** Failures *)

Lemma warning_in_params_trace (w : world) (now : string) (i : nat)
    (p : demo_param) (e : exception) :
  (params_run w now i p).2 = inl e ->
  Log WARNING (ErrorProcessing p e) ∈ params_trace w now i p.
Proof.
  unfold params_trace. destruct (params_run w now i p) as [t r]. cbn.
  intros ->. apply elem_of_app. right. apply list_elem_of_singleton.
  reflexivity.
Qed.

Lemma params_trace_in_trace (configuration state : gmap string json)
    (w : world) (i : nat) (p : demo_param) (ev : event) :
  demo_params !! i = Some p ->
  ev ∈ params_trace w (current_time w) i p ->
  ev ∈ trace configuration state w.
Proof.
  intros Hp Hev. unfold trace. rewrite sync_run. cbn [fst].
  apply list_elem_of_further, elem_of_app. left.
  apply (elem_of_concat _ _ _ Hev).
  unfold turns. apply (elem_of_lookup_imap_2 _ _ _ _ Hp).
Qed.

(** C3: if the request or the parsing of one parameter set raises an
    exception (an HTTP error status included), the handler logs it as a
    warning, the upserts of a run are still those of all eight parameter
    sets, each taken on its own, the checkpoint is still the last thing
    yielded, and no exception leaves update. *)
Theorem C3_failure_of_one_parameter_set (configuration state : gmap string json)
    (w : world) (i : nat) (params : demo_param) (e : exception) :
  demo_params !! i = Some params ->
  (params_run w (current_time w) i params).2 = inl e ->
  Log WARNING (ErrorProcessing params e) ∈ trace configuration state w
  /\ upserts (trace configuration state w)
     = concat (imap (fun j q => upserts (params_run w (current_time w) j q).1)
                 demo_params)
  /\ (forall j q d, j <> i -> demo_params !! j = Some q ->
        d ∈ upserts (params_run w (current_time w) j q).1 ->
        d ∈ upserts (trace configuration state w))
  /\ last (yielded (trace configuration state w))
     = Some (Checkpoint {[ "last_updated" := JStr (current_time w) ]})
  /\ (sync configuration state w).2 = ok tt.
Proof.
  intros Hp He.
  assert (Hups : upserts (trace configuration state w)
     = concat (imap (fun j q => upserts (params_run w (current_time w) j q).1)
                 demo_params)).
  { rewrite upserts_trace. f_equal. apply imap_ext. intros j q _.
    apply upserts_of_params_run. }
  split; [|split; [|split; [|split]]].
  - eapply params_trace_in_trace; [exact Hp|].
    by apply warning_in_params_trace.
  - exact Hups.
  - intros j q d _ Hq Hd. rewrite Hups.
    apply (elem_of_concat _ _ _ Hd).
    apply (elem_of_lookup_imap_2
             (fun j q => upserts (params_run w (current_time w) j q).1) _ _ _ Hq).
  - rewrite yielded_trace. apply last_snoc.
  - by rewrite sync_run.
Qed.

Lemma C3_failure_of_one_parameter_set_witness :
  Log WARNING
    (ErrorProcessing
       [("YEAR", "1"); ("ORIGIN", "1"); ("RACE", "3"); ("SEX", "1"); ("AGE", "1")]
       HTTPError) ∈ trace ∅ ∅ one_failure
  /\ length (upserts (trace ∅ ∅ one_failure)) = 14%nat
  /\ last (yielded (trace ∅ ∅ one_failure))
     = Some (Checkpoint {[ "last_updated" := JStr "2024-03-09T12:00:00Z" ]}).
Proof.
  destruct (C3_failure_of_one_parameter_set ∅ ∅ one_failure 2
              [("YEAR", "1"); ("ORIGIN", "1"); ("RACE", "3"); ("SEX", "1"); ("AGE", "1")]
              HTTPError)
    as (Hlog & Hups & _ & Hlast & _); [reflexivity | reflexivity |].
  split; [exact Hlog|]. split; [|exact Hlast].
  rewrite Hups. reflexivity.
Defined.

(** ** The translation of a row *)

(** What a translated row was made of. *)
Lemma translate_row_ok (now : string) (headers row : json) (d : row_data) :
  translate_row now headers row = ok d ->
  exists rd,
    row_dict headers row = ok rd
    /\ Py.int (Py.dict_get rd "YEAR" (JInt 0)) = ok (year d)
    /\ Py.int (Py.dict_get rd "AGE" (JInt 0)) = ok (age d)
    /\ Py.int (Py.dict_get rd "POP" (JInt 0)) = ok (total_pop d)
    /\ race_str (Py.dict_get rd "RACE" (JStr "")) = ok (race d)
    /\ sex_str (Py.dict_get rd "SEX" (JStr "")) = ok (sex d)
    /\ last_updated d = now.
Proof.
  unfold translate_row, and_then. intros H.
  destruct (row_dict headers row) as [e|rd]; [discriminate|].
  exists rd.
  destruct (Py.int (Py.dict_get rd "YEAR" (JInt 0))) as [e|y]; [discriminate|].
  destruct (Py.int (Py.dict_get rd "AGE" (JInt 0))) as [e|a]; [discriminate|].
  destruct (Py.int (Py.dict_get rd "POP" (JInt 0))) as [e|n]; [discriminate|].
  destruct (race_str (Py.dict_get rd "RACE" (JStr ""))) as [e|r]; [discriminate|].
  destruct (sex_str (Py.dict_get rd "SEX" (JStr ""))) as [e|x]; [discriminate|].
  injection H as <-. by cbn.
Qed.

(** A lookup that misses hands the key back. *)
Lemma table_get_unlisted (table : gmap string string) (v r : json) :
  Py.table_get table v v = ok r ->
  (forall k, v = JStr k -> table !! k = None) ->
  r = v.
Proof.
  destruct v as [| | | |k| |]; cbn; intros H Hmiss; try by inversion H.
  rewrite (Hmiss k eq_refl) in H. by inversion H.
Qed.

(** C6: the race code "2" is translated to "Black" (and "1" to "White", "3"
    to "AIAN", "4" to "Asian", "5" to "NHPI", "6" to "Two or More Races");
    a code that is not in the table is handed back unchanged, as "9" is;
    and the race of every upserted row is the translation of the RACE value
    of that row. *)
Theorem C6_race_codes :
  race_str (JStr "1") = ok (JStr "White")
  /\ race_str (JStr "2") = ok (JStr "Black")
  /\ race_str (JStr "3") = ok (JStr "AIAN")
  /\ race_str (JStr "4") = ok (JStr "Asian")
  /\ race_str (JStr "5") = ok (JStr "NHPI")
  /\ race_str (JStr "6") = ok (JStr "Two or More Races")
  /\ race_str (JStr "9") = ok (JStr "9")
  /\ (forall code : string,
        race_map !! code = None -> race_str (JStr code) = ok (JStr code))
  /\ (forall (code translated : json),
        race_str code = ok translated ->
        (forall k, code = JStr k -> race_map !! k = None) ->
        translated = code)
  /\ (forall (now : string) (headers row : json) (d : row_data),
        translate_row now headers row = ok d ->
        exists rd,
          row_dict headers row = ok rd
          /\ race_str (Py.dict_get rd "RACE" (JStr "")) = ok (race d)).
Proof.
  repeat (split; [reflexivity|]).
  split; [|split].
  - intros code H. unfold race_str, Py.table_get. by rewrite H.
  - intros code translated. apply table_get_unlisted.
  - intros now headers row d H.
    destruct (translate_row_ok _ _ _ _ H) as (rd & Hrd & _ & _ & _ & Hrace & _).
    eauto.
Qed.

Lemma C6_race_codes_witness :
  exists rd,
    row_dict (JArr [JStr "POP"; JStr "YEAR"; JStr "RACE"; JStr "SEX"; JStr "AGE"])
      (JArr [JStr "1994"; JStr "2017"; JStr "2"; JStr "1"; JStr "0"]) = ok rd
    /\ race_str (Py.dict_get rd "RACE" (JStr "")) = ok (JStr "Black").
Proof.
  destruct C6_race_codes as (_ & _ & _ & _ & _ & _ & _ & _ & _ & Hrow).
  apply (Hrow "2024-03-09T12:00:00Z" _ _
           {| year := 2017; race := JStr "Black"; sex := JStr "Male"; age := 0;
              total_pop := 1994; last_updated := "2024-03-09T12:00:00Z" |}).
  reflexivity.
Defined.

(** C7: the sex code "1" is translated to "Male" and "2" to "Female"; any
    other code is handed back unchanged; and the sex of every upserted row
    is the translation of the SEX value of that row. *)
Theorem C7_sex_codes :
  sex_str (JStr "1") = ok (JStr "Male")
  /\ sex_str (JStr "2") = ok (JStr "Female")
  /\ (forall code : string,
        code <> "1" -> code <> "2" -> sex_str (JStr code) = ok (JStr code))
  /\ (forall (code translated : json),
        sex_str code = ok translated ->
        code <> JStr "1" -> code <> JStr "2" ->
        translated = code)
  /\ (forall (now : string) (headers row : json) (d : row_data),
        translate_row now headers row = ok d ->
        exists rd,
          row_dict headers row = ok rd
          /\ sex_str (Py.dict_get rd "SEX" (JStr "")) = ok (sex d)).
Proof.
  assert (Hmiss : forall code : string,
             code <> "1" -> code <> "2" -> sex_map !! code = None).
  { intros code H1 H2. unfold sex_map. cbn [list_to_map foldr curry fst snd].
    by rewrite !lookup_insert_ne, lookup_empty. }
  split; [reflexivity|]. split; [reflexivity|]. split; [|split].
  - intros code H1 H2. unfold sex_str, Py.table_get.
    by rewrite (Hmiss code H1 H2).
  - intros code translated H H1 H2. apply (table_get_unlisted _ _ _ H).
    intros k ->. apply Hmiss; congruence.
  - intros now headers row d H.
    destruct (translate_row_ok _ _ _ _ H) as (rd & Hrd & _ & _ & _ & _ & Hsex & _).
    eauto.
Qed.

Lemma C7_sex_codes_witness :
  sex_str (JStr "0") = ok (JStr "0")
  /\ exists rd,
    row_dict (JArr [JStr "POP"; JStr "YEAR"; JStr "RACE"; JStr "SEX"; JStr "AGE"])
      (JArr [JStr "1994"; JStr "2017"; JStr "2"; JStr "2"; JStr "0"]) = ok rd
    /\ sex_str (Py.dict_get rd "SEX" (JStr "")) = ok (JStr "Female").
Proof.
  destruct C7_sex_codes as (_ & _ & Hother & _ & Hrow).
  split; [apply Hother; discriminate|].
  apply (Hrow "2024-03-09T12:00:00Z" _ _
           {| year := 2017; race := JStr "Black"; sex := JStr "Female"; age := 0;
              total_pop := 1994; last_updated := "2024-03-09T12:00:00Z" |}).
  reflexivity.
Defined.

(** ** The range of int() on strings *)

Lemma is_space_ascii (c : ascii) : Py.is_space c = true -> is_ascii c = true.
Proof.
  unfold Py.is_space, is_ascii. intros H. apply Nat.ltb_lt.
  apply orb_true_iff in H as [H|H].
  - apply andb_true_iff in H as [_ H]. apply Nat.leb_le in H. lia.
  - apply Nat.eqb_eq in H. lia.
Qed.

Lemma lstrip_ascii (l : list ascii) :
  forallb is_ascii (Py.lstrip l) = true -> forallb is_ascii l = true.
Proof.
  induction l as [|c l IH]; [done|]. cbn [Py.lstrip forallb].
  destruct (Py.is_space c) eqn:Hc; [|done].
  intros H. by rewrite (is_space_ascii _ Hc), (IH H).
Qed.

Lemma forallb_rev {A} (f : A -> bool) (l : list A) :
  forallb f (rev l) = forallb f l.
Proof.
  induction l as [|a l IH]; [done|]. cbn.
  rewrite forallb_app, IH. cbn. by rewrite andb_true_r, andb_comm.
Qed.

Lemma strip_ascii (l : list ascii) :
  forallb is_ascii (Py.strip l) = true -> forallb is_ascii l = true.
Proof.
  unfold Py.strip. rewrite forallb_rev. intros H.
  apply lstrip_ascii. rewrite <- forallb_rev. by apply lstrip_ascii.
Qed.

Lemma digits_ascii (after_underscore : bool) (acc : Z) (count : nat)
    (l : list ascii) (r : Z * nat) :
  Py.digits after_underscore acc count l = Some r ->
  forallb is_ascii l = true.
Proof.
  revert after_underscore acc count.
  induction l as [|c l IH]; intros b acc k; [done|].
  cbn [Py.digits forallb].
  destruct (Ascii.eqb c "_") eqn:Hc.
  - apply Ascii.eqb_eq in Hc as ->. destruct b; [discriminate|]. apply IH.
  - unfold Py.digit_value.
    destruct ((48 <=? nat_of_ascii c)%nat && (nat_of_ascii c <=? 57)%nat)
      eqn:Hd; [|discriminate].
    intros H. rewrite (IH _ _ _ H), andb_true_r.
    apply andb_true_iff in Hd as [_ Hd]. apply Nat.leb_le in Hd.
    unfold is_ascii. apply Nat.ltb_lt. lia.
Qed.

(** The sign that [int_of_str] takes off is an ASCII character. *)
Lemma sign_ascii (l : list ascii) :
  forallb is_ascii
    (match l with
     | "-"%char :: r => (true, r)
     | "+"%char :: r => (false, r)
     | _ => (false, l)
     end).2 = true ->
  forallb is_ascii l = true.
Proof.
  destruct l as [|c r]; [done|].
  destruct c as [[] [] [] [] [] [] [] []]; cbn; done.
Qed.

(** Every string that [Py.int_of_str] accepts is ASCII: on the strings with
    another character the model refuses, whatever Python does. *)
Lemma int_of_str_ascii (s : string) (n : Z) :
  Py.int_of_str s = ok n -> forallb is_ascii (list_ascii_of_string s) = true.
Proof.
  unfold Py.int_of_str. intros H. apply strip_ascii, sign_ascii.
  destruct (match Py.strip (list_ascii_of_string s) with
            | "-"%char :: r => (true, r)
            | "+"%char :: r => (false, r)
            | _ => (false, Py.strip (list_ascii_of_string s))
            end) as [negative body].
  cbn [snd].
  destruct (Py.digits true 0 0 body) as [r|] eqn:Hd; [|discriminate].
  by apply (digits_ascii _ _ _ _ _ Hd).
Qed.

Lemma int_accepts_ascii (v : json) (n : Z) :
  Py.int v = ok n -> ascii_text v = true.
Proof. destruct v; try done. apply int_of_str_ascii. Qed.

(** The separators 28 to 31 are no whitespace for int() on an ASCII string:
    a number that follows one is refused, and so is the row that holds
    it. *)
Example separator_is_not_stripped :
  Py.int (JStr (String (ascii_of_nat 28) "12")) = raise ValueError
  /\ Py.int (JStr (String (ascii_of_nat 9) "12 ")) = ok 12
  /\ convertible [JStr "YEAR"] [JStr (String (ascii_of_nat 28) "12")] = false.
Proof. repeat split; reflexivity. Qed.

(** ** Short rows *)

(** zip drops the headers beyond the end of the row. *)
Lemma zip_headers (hs cells : list json) :
  (Py.zip hs cells).*1 = take (length cells) hs.
Proof.
  revert cells. induction hs as [|h hs IH]; intros [|c cells]; cbn; try done.
  by rewrite IH.
Qed.

(** A key that is not among the paired headers takes the default. *)
Lemma dict_get_absent (d : list (json * json)) (key : string) (default : json) :
  JStr key ∉ d.*1 -> Py.dict_get d key default = default.
Proof.
  revert default. induction d as [|[k v] d IH]; intros default Habs; [done|].
  cbn in Habs. apply not_elem_of_cons in Habs as [Hk Hd].
  destruct k as [| | | |k| |]; cbn; try by apply IH.
  rewrite bool_decide_eq_false_2 by congruence. by apply IH.
Qed.

Lemma is_ok_true {A} (r : result A) : is_ok r = true -> exists a, r = ok a.
Proof. destruct r as [e|a]; [discriminate|]. eauto. Qed.

Lemma table_get_is_ok (table : gmap string string) (v : json) :
  is_ok (Py.table_get table v v) = Py.hashable v.
Proof. by destruct v. Qed.

(** A row of cells translates exactly when it is [convertible]. *)
Lemma translate_row_convertible (now : string) (hs cells : list json) :
  is_ok (translate_row now (JArr hs) (JArr cells)) = convertible hs cells.
Proof.
  unfold translate_row, row_dict, convertible, Py.dict, and_then, race_str,
    sex_str. cbn [Py.iter ok].
  rewrite <- (table_get_is_ok race_map), <- (table_get_is_ok sex_map).
  destruct (forallb _ (Py.zip hs cells)); [|reflexivity].
  unfold ok. cbn [andb].
  destruct (Py.int (Py.dict_get _ "YEAR" _)) as [e|y]; [reflexivity|].
  destruct (Py.int (Py.dict_get _ "AGE" _)) as [e|a]; [reflexivity|].
  destruct (Py.int (Py.dict_get _ "POP" _)) as [e|n]; [reflexivity|].
  destruct (Py.table_get race_map _ _) as [e|r]; [reflexivity|].
  by destruct (Py.table_get sex_map _ _) as [e|x].
Qed.

(** C10, as the code has it: a data row translates, and one upsert is
    yielded for it, when the header cells it is paired with are hashable,
    its YEAR, AGE and POP values convert with int() and its RACE and SEX
    values are hashable (no array, no object).  A row shorter than the
    header row is paired with the first headers only, and a header that is
    not among them takes its default: 0 for year, age and total_pop, the
    empty string for race and sex. *)
Theorem C10_short_rows (now : string) (hs cells : list json) :
  convertible hs cells = true ->
  exists d,
    translate_row now (JArr hs) (JArr cells) = ok d
    /\ (forall s,
          row_body now (JArr hs) (JArr cells) s
          = ([upsert_event d],
             {| total_records := S (total_records s);
                requests_sent := requests_sent s |},
             ok tt))
    /\ row_dict (JArr hs) (JArr cells) = ok (Py.zip hs cells)
    /\ (Py.zip hs cells).*1 = take (length cells) hs
    /\ (JStr "YEAR" ∉ take (length cells) hs -> year d = 0)
    /\ (JStr "AGE" ∉ take (length cells) hs -> age d = 0)
    /\ (JStr "POP" ∉ take (length cells) hs -> total_pop d = 0)
    /\ (JStr "RACE" ∉ take (length cells) hs -> race d = JStr "")
    /\ (JStr "SEX" ∉ take (length cells) hs -> sex d = JStr "").
Proof.
  intros Hc. rewrite <- (translate_row_convertible now) in Hc.
  apply is_ok_true in Hc as [d Hd]. exists d.
  destruct (translate_row_ok _ _ _ _ Hd)
    as (rd & Hrd & Hyear & Hage & Hpop & Hrace & Hsex & _).
  assert (rd = Py.zip hs cells) as ->.
  { unfold row_dict, Py.dict in Hrd. cbn in Hrd.
    destruct (forallb _ _); [by inversion Hrd | discriminate]. }
  rewrite <- zip_headers.
  split; [done|]. split; [|split; [done|split; [done|]]].
  - intros s. unfold row_body, Gen.bind, Gen.eval, yield, Gen.emit,
      incr_total_records. by rewrite Hd.
  - split; [|split; [|split; [|split]]]; intros Habs.
    + rewrite (dict_get_absent _ _ _ Habs) in Hyear. by inversion Hyear.
    + rewrite (dict_get_absent _ _ _ Habs) in Hage. by inversion Hage.
    + rewrite (dict_get_absent _ _ _ Habs) in Hpop. by inversion Hpop.
    + rewrite (dict_get_absent _ _ _ Habs) in Hrace. by inversion Hrace.
    + rewrite (dict_get_absent _ _ _ Habs) in Hsex. by inversion Hsex.
Qed.

Lemma C10_short_rows_witness :
  exists d,
    translate_row "2024-03-09T12:00:00Z" (JArr census_headers) (JArr short_row)
    = ok d
    /\ year d = 2017 /\ race d = JStr "Black" /\ sex d = JStr ""
    /\ age d = 0 /\ total_pop d = 1994.
Proof.
  destruct (C10_short_rows "2024-03-09T12:00:00Z" census_headers short_row)
    as (d & Hd & _ & _ & _ & _ & Hage & _ & _ & Hsex); [reflexivity|].
  exists d. split; [exact Hd|].
  rewrite Hage, Hsex;
    [| intros H; repeat (apply elem_of_cons in H as [H|H]; [discriminate|]);
       by apply not_elem_of_nil in H ..].
  injection Hd as <-. repeat split; reflexivity.
Defined.

(** C10 as it was stated fails: this row is shorter than the header row, its
    YEAR and POP convert and AGE is absent, yet its RACE value is an array,
    which the lookup in [race_map] cannot hash: a TypeError is raised and
    nothing is yielded for the row. *)
Lemma C10_counterexample :
  (length short_row_with_array < length census_headers)%nat
  /\ Py.int (Py.dict_get (Py.zip census_headers short_row_with_array)
               "YEAR" (JInt 0)) = ok 2017
  /\ Py.int (Py.dict_get (Py.zip census_headers short_row_with_array)
               "AGE" (JInt 0)) = ok 0
  /\ Py.int (Py.dict_get (Py.zip census_headers short_row_with_array)
               "POP" (JInt 0)) = ok 1994
  /\ translate_row "2024-03-09T12:00:00Z" (JArr census_headers)
       (JArr short_row_with_array) = raise TypeError
  /\ row_body "2024-03-09T12:00:00Z" (JArr census_headers)
       (JArr short_row_with_array) fresh = ([], fresh, raise TypeError).
Proof.
  split; [cbn; lia|]. repeat split; reflexivity.
Qed.

(** ** One upsert per data row *)

Lemma translates_all (now : string) (headers : list json) (rows : list json) :
  forallb (translates headers) rows = true ->
  length (translate_rows now (JArr headers) rows).1 = length rows
  /\ (translate_rows now (JArr headers) rows).2 = ok tt.
Proof.
  intros H. apply translate_rows_all_ok.
  apply Forall_forall. intros row Hrow.
  rewrite forallb_forall in H. apply list_elem_of_In in Hrow.
  specialize (H row Hrow). destruct row as [| | | | |cells|]; try done.
  cbn in H. by rewrite translate_row_convertible.
Qed.

(** C2, as the code has it: when the request of a parameter set succeeds
    and returns a JSON array that begins with a header row and whose data
    rows are arrays that all translate (hashable header cells, YEAR, AGE and
    POP that convert with int(), hashable RACE and SEX), the parameter set
    yields as many upserts as the array is long, minus one for the header,
    and its try body ends without an exception. *)
Theorem C2_one_upsert_per_data_row (w : world) (now : string) (i : nat)
    (params : demo_param) (resp : response) (headers rows : list json) :
  rq_get w i (full_url params) = ok resp ->
  raise_for_status resp = ok tt ->
  json_body resp = ok (JArr (JArr headers :: rows)) ->
  forallb (translates headers) rows = true ->
  length (upserts (params_run w now i params).1)
  = (length (JArr headers :: rows) - 1)%nat
  /\ (params_run w now i params).2 = ok tt.
Proof.
  intros Hget Hstatus Hjson Hrows.
  rewrite upserts_params_run, outcome_params_run.
  unfold response_upserts, response_rows, and_then.
  rewrite Hget. unfold ok at 1 3. rewrite Hstatus. unfold ok at 1 3.
  rewrite Hjson. cbn -[translate_rows].
  rewrite Nat.sub_0_r. by apply translates_all.
Qed.

Lemma C2_one_upsert_per_data_row_witness :
  length (upserts (params_run served "2024-03-09T12:00:00Z" 0 []).1) = 2%nat
  /\ (params_run served "2024-03-09T12:00:00Z" 0 []).2 = ok tt.
Proof.
  apply (C2_one_upsert_per_data_row served "2024-03-09T12:00:00Z" 0 []
           {| status_code := 200; json_body := ok census_sample |}
           [JStr "POP"; JStr "YEAR"; JStr "RACE"; JStr "SEX"; JStr "AGE"; JStr "us"]
           [ JArr [JStr "1994"; JStr "2017"; JStr "2"; JStr "1"; JStr "0"; JStr "1"];
             JArr [JStr "1876"; JStr "2017"; JStr "9"; JStr "2"; JStr "0"; JStr "1"] ]);
    reflexivity.
Defined.

(** C2 as it was stated fails: the request succeeds and returns a JSON array
    of two arrays, but the YEAR of its one data row is no number, int()
    raises a ValueError, and the parameter set yields no upsert where the
    array length minus one is 1. *)
Lemma C2_counterexample :
  rq_get (steady ticking (fun _ => respond 200 unparsable_year)) 0 (full_url [])
  = ok {| status_code := 200; json_body := ok unparsable_year |}
  /\ raise_for_status {| status_code := 200; json_body := ok unparsable_year |}
     = ok tt
  /\ unparsable_year = JArr [ JArr [JStr "YEAR"]; JArr [JStr "abc"] ]
  /\ forallb is_array [ JArr [JStr "YEAR"]; JArr [JStr "abc"] ] = true
  /\ upserts
       (params_run (steady ticking (fun _ => respond 200 unparsable_year))
          "2024-03-09T12:00:00Z" 0 []).1 = []
  /\ (params_run (steady ticking (fun _ => respond 200 unparsable_year))
        "2024-03-09T12:00:00Z" 0 []).2 = raise ValueError
  /\ (length [ JArr [JStr "YEAR"]; JArr [JStr "abc"] ] - 1)%nat = 1%nat.
Proof. repeat split; reflexivity. Qed.

(** The same happens from the first row that raises on: the rows before it
    are upserted, the rows after it are not. *)
Example rows_after_a_failure_are_lost :
  response_upserts "2024-03-09T12:00:00Z"
    (respond 200
       (JArr [ JArr [JStr "YEAR"]; JArr [JStr "2017"]; JArr [JStr "abc"];
               JArr [JStr "2018"] ]))
  = [ {| year := 2017; race := JStr ""; sex := JStr ""; age := 0;
         total_pop := 0; last_updated := "2024-03-09T12:00:00Z" |} ].
Proof. reflexivity. Qed.

(** An empty array has no header row: data[0] raises and nothing is
    upserted. *)
Example empty_array_yields_nothing :
  (params_run (steady ticking (fun _ => respond 200 (JArr [])))
     "2024-03-09T12:00:00Z" 0 []).2 = raise IndexError
  /\ response_upserts "2024-03-09T12:00:00Z" (respond 200 (JArr [])) = [].
Proof. split; reflexivity. Qed.

(** ** The natural key *)

(** With a server that answers by the URL, the upserts of a run are those of
    one parameter set, eight times over. *)
Lemma upserts_steady (configuration state : gmap string json)
    (clock : nat -> datetime) (answer : string -> result response) :
  upserts (trace configuration state (steady clock answer))
  = concat (replicate 8
      (upserts (params_run (steady clock answer) (strftime (clock 0%nat))
                  0 []).1)).
Proof. rewrite upserts_trace, upserts_params_run. reflexivity. Qed.

(** C1, where the code breaks it: the loop that would add the parameters to
    the query is commented out, so the eight requests are the same and a
    server that answers by the URL is asked eight times for the same data.
    Whenever that data gives a parameter set a first upsert, the run yields
    the very same mapping again, with the same (year, race, sex, age), at a
    later position; served the sample data, the run yields 16 upserts, the
    key (2017, Black, Male, 0) at positions 0 and 2 among them. *)
Theorem C1_same_key_upserted_again :
  (forall (configuration state : gmap string json) (clock : nat -> datetime)
     (answer : string -> result response) (d : row_data),
     upserts (params_run (steady clock answer) (strftime (clock 0%nat)) 0 []).1
       !! 0%nat = Some d ->
     exists b, b <> 0%nat
       /\ upserts (trace configuration state (steady clock answer)) !! 0%nat
          = Some d
       /\ upserts (trace configuration state (steady clock answer)) !! b
          = Some d)
  /\ upserts (trace ∅ ∅ served) !! 0%nat
     = Some {| year := 2017; race := JStr "Black"; sex := JStr "Male"; age := 0;
               total_pop := 1994; last_updated := "2024-03-09T12:00:00Z" |}
  /\ upserts (trace ∅ ∅ served) !! 2%nat
     = Some {| year := 2017; race := JStr "Black"; sex := JStr "Male"; age := 0;
               total_pop := 1994; last_updated := "2024-03-09T12:00:00Z" |}
  /\ natural_key
       {| year := 2017; race := JStr "Black"; sex := JStr "Male"; age := 0;
          total_pop := 1994; last_updated := "2024-03-09T12:00:00Z" |}
     = (2017, JStr "Black", JStr "Male", 0)
  /\ length (upserts (trace ∅ ∅ served)) = 16%nat.
Proof.
  split; [|repeat split; reflexivity].
  intros configuration state clock answer d Hd.
  rewrite upserts_steady.
  set (us := upserts (params_run (steady clock answer) (strftime (clock 0%nat))
                        0 []).1) in *.
  exists (length us). cbn [replicate concat].
  split; [|split].
  - destruct us; [discriminate Hd | cbn; lia].
  - by apply lookup_app_l_Some.
  - rewrite lookup_app_r by lia. rewrite Nat.sub_diag.
    by apply lookup_app_l_Some.
Qed.

(** * Further properties of the run *)

(** ** The count, the operations and the state handed on *)

Lemma upserts_sync_run (configuration state : gmap string json) (w : world) :
  upserts (trace configuration state w)
  = upserts (concat (turns w (current_time w) 0 demo_params)).
Proof.
  unfold trace. rewrite sync_run. cbn [fst].
  change (?e :: ?t ++ ?u) with ([e] ++ t ++ u).
  rewrite !upserts_app. cbn -[turns demo_params]. by rewrite app_nil_r.
Qed.

(** X1: the total that update logs before the checkpoint is the number of
    upserts it yielded, whatever failed on the way: the rows upserted before
    a failure are counted, the others are not. *)
Theorem total_records_counts_the_upserts (configuration state : gmap string json)
    (w : world) :
  exists before,
    trace configuration state w
    = before
      ++ [ Log INFO (TotalRecords (length (upserts (trace configuration state w))));
           Yield (Checkpoint {[ "last_updated" := JStr (current_time w) ]}) ].
Proof.
  exists (Log INFO StartingSync :: concat (turns w (current_time w) 0 demo_params)).
  rewrite upserts_sync_run. unfold trace. by rewrite sync_run.
Qed.

(** X2: every operation of a run but the last is an upsert into
    "population_projections", the one table that schema declares; the last
    is the only checkpoint. *)
Theorem upserts_into_the_declared_table (configuration state : gmap string json)
    (w : world) :
  table <$> schema configuration = ["population_projections"]
  /\ yielded (trace configuration state w)
     = (Upsert "population_projections" <$> upserts (trace configuration state w))
       ++ [Checkpoint {[ "last_updated" := JStr (current_time w) ]}]
  /\ length (yielded (trace configuration state w))
     = S (length (upserts (trace configuration state w))).
Proof.
  split; [reflexivity|]. rewrite yielded_trace. split; [reflexivity|].
  rewrite length_app, length_fmap. cbn. lia.
Qed.

(** X3: the state of the checkpoint, handed to the next run, gives that run
    the time of this run as its cursor, in place of the default. *)
Theorem checkpoint_is_the_next_cursor (configuration state : gmap string json)
    (w : world) (next_state : gmap string json) :
  last (yielded (trace configuration state w)) = Some (Checkpoint next_state) ->
  next_state !! "last_updated" = Some (JStr (current_time w))
  /\ last_updated_cursor next_state = JStr (current_time w).
Proof.
  rewrite yielded_trace, last_snoc. intros [= <-].
  unfold last_updated_cursor. by rewrite lookup_singleton_eq.
Qed.

Lemma checkpoint_is_the_next_cursor_witness :
  last_updated_cursor {[ "last_updated" := JStr "2024-03-09T12:00:00Z" ]}
  = JStr "2024-03-09T12:00:00Z".
Proof.
  apply (checkpoint_is_the_next_cursor ∅ ∅ served
           {[ "last_updated" := JStr "2024-03-09T12:00:00Z" ]}).
  rewrite yielded_trace. apply last_snoc.
Defined.

(** ** Responses without rows *)

Ltac run_try_body :=
  unfold params_trace, params_run, fetch_and_translate, Gen.bind,
    Gen.http_get, Gen.eval, log, Gen.emit;
  cbn [total_records requests_sent].

Lemma raise_for_status_error (resp : response) :
  400 <= status_code resp < 600 -> raise_for_status resp = raise HTTPError.
Proof.
  intros [H4 H6]. unfold raise_for_status.
  apply Z.leb_le in H4. apply Z.ltb_lt in H6. by rewrite H4, H6.
Qed.

Lemma raise_for_status_fine (resp : response) :
  ~ 400 <= status_code resp < 600 -> raise_for_status resp = ok tt.
Proof.
  intros H. unfold raise_for_status.
  destruct (400 <=? status_code resp) eqn:H4; [|done].
  destruct (status_code resp <? 600) eqn:H6; [|done].
  apply Z.leb_le in H4. apply Z.ltb_lt in H6. lia.
Qed.

(** X4: a parameter set whose request raises, whose status is 4xx or 5xx, whose
    body does not decode, or whose decoded body has no first element (an
    object, an empty array, an empty string, a number, a boolean, null) does
    three things only: it logs the URL, sends the one request and logs the
    warning with the exception.  No upsert is yielded, the number of records
    is not logged, nothing is retried. *)
Theorem failure_before_the_rows (w : world) (now : string) (i : nat)
    (params : demo_param) (e : exception) :
  rq_get w i (full_url params) = raise e
  \/ (exists resp,
        rq_get w i (full_url params) = ok resp
        /\ 400 <= status_code resp < 600 /\ e = HTTPError)
  \/ (exists resp,
        rq_get w i (full_url params) = ok resp
        /\ ~ 400 <= status_code resp < 600
        /\ json_body resp = raise e)
  \/ (exists resp data,
        rq_get w i (full_url params) = ok resp
        /\ ~ 400 <= status_code resp < 600
        /\ json_body resp = ok data
        /\ Py.item0 data = raise e) ->
  params_trace w now i params
  = [ Log FINE (RequestingURL (full_url params));
      Get i (full_url params);
      Log WARNING (ErrorProcessing params e) ].
Proof.
  run_try_body.
  intros [H|[(resp & H & Hs & ->)|[(resp & H & Hs & Hj)|(resp & data & H & Hs & Hj & H0)]]];
    rewrite H; [done|..]; unfold ok.
  - by rewrite (raise_for_status_error _ Hs).
  - by rewrite (raise_for_status_fine _ Hs), Hj.
  - rewrite (raise_for_status_fine _ Hs). unfold ok. rewrite Hj. unfold ok.
    by rewrite H0.
Qed.

Lemma failure_before_the_rows_witness :
  params_trace one_failure "2024-03-09T12:00:00Z" 2 []
  = [ Log FINE (RequestingURL (full_url []));
      Get 2 (full_url []);
      Log WARNING (ErrorProcessing [] HTTPError) ].
Proof.
  apply (failure_before_the_rows one_failure "2024-03-09T12:00:00Z" 2 []
           HTTPError).
  right. left. exists {| status_code := 500; json_body := ok JNull |}.
  split; [reflexivity|]. split; [cbn; lia | reflexivity].
Defined.

(** The bodies without a first element, and the exception of each. *)
Example bodies_without_a_first_element :
  Py.item0 (JArr []) = raise IndexError
  /\ Py.item0 (JStr "") = raise IndexError
  /\ Py.item0 (JObj [("error", JStr "Invalid Key")]) = raise KeyError
  /\ Py.item0 JNull = raise TypeError
  /\ Py.item0 (JInt 404) = raise TypeError.
Proof. repeat split; reflexivity. Qed.

(** X5: a body that is an array of its header row alone is no failure: zero
    records are logged as received, nothing is upserted and no warning is
    logged, whatever the header is (it is never iterated). *)
Theorem header_row_alone (w : world) (now : string) (i : nat)
    (params : demo_param) (resp : response) (headers : json) :
  rq_get w i (full_url params) = ok resp ->
  ~ 400 <= status_code resp < 600 ->
  json_body resp = ok (JArr [headers]) ->
  params_trace w now i params
  = [ Log FINE (RequestingURL (full_url params));
      Get i (full_url params);
      Log INFO (ReceivedRecords 0 params) ].
Proof.
  intros H Hs Hj. run_try_body. rewrite H. unfold ok.
  rewrite (raise_for_status_fine _ Hs). unfold ok. by rewrite Hj.
Qed.

Lemma header_row_alone_witness :
  params_trace (steady ticking (fun _ => respond 200 (JArr [JInt 5])))
    "2024-03-09T12:00:00Z" 0 []
  = [ Log FINE (RequestingURL (full_url []));
      Get 0 (full_url []);
      Log INFO (ReceivedRecords 0 []) ].
Proof.
  apply (header_row_alone _ _ _ _
           {| status_code := 200; json_body := ok (JArr [JInt 5]) |} (JInt 5));
    [reflexivity | cbn; lia | reflexivity].
Defined.

(** ** The rows before and after a failure *)

(** What the loop over the rows upserts is the translation, in order, of the
    rows up to the first one that raises; it ends well when no row raises,
    and otherwise with the exception of that row. *)
Lemma translate_rows_prefix (now : string) (headers : json) (rows : list json) :
  Forall2 (fun row d => translate_row now headers row = ok d)
    (take (length (translate_rows now headers rows).1) rows)
    (translate_rows now headers rows).1
  /\ match (translate_rows now headers rows).2 with
     | inr _ => length (translate_rows now headers rows).1 = length rows
     | inl e =>
         exists bad,
           rows !! length (translate_rows now headers rows).1 = Some bad
           /\ translate_row now headers bad = raise e
     end.
Proof.
  induction rows as [|row rest [IH1 IH2]]; [by split; [constructor|]|].
  cbn [translate_rows].
  destruct (translate_row now headers row) as [e|d] eqn:Hrow.
  - split; [constructor|]. by exists row.
  - destruct (translate_rows now headers rest) as [ds r]. cbn in *.
    split; [by constructor|].
    destruct r as [e|[]]; [exact IH2 | by f_equal].
Qed.

Lemma response_rows_array (r : result response) (resp : response)
    (headers : json) (rows : list json) :
  r = ok resp ->
  ~ 400 <= status_code resp < 600 ->
  json_body resp = ok (JArr (headers :: rows)) ->
  response_rows r = ok (headers, rows).
Proof.
  intros -> Hs Hj. unfold response_rows, and_then, ok.
  rewrite (raise_for_status_fine _ Hs). unfold ok. by rewrite Hj.
Qed.

(** X6: for a decoded array with a header row, the upserts of a parameter set
    are the translations, in order, of the data rows before the first one
    that raises: never more than one per row, none for the rows after the
    failure, and the exception of the failing row is the one that ends the
    try body. *)
Theorem upserts_stop_at_the_first_failure (w : world) (now : string) (i : nat)
    (params : demo_param) (resp : response) (headers : json)
    (rows : list json) :
  rq_get w i (full_url params) = ok resp ->
  ~ 400 <= status_code resp < 600 ->
  json_body resp = ok (JArr (headers :: rows)) ->
  (length (upserts (params_run w now i params).1) <= length rows)%nat
  /\ Forall2 (fun row d => translate_row now headers row = ok d)
       (take (length (upserts (params_run w now i params).1)) rows)
       (upserts (params_run w now i params).1)
  /\ match (params_run w now i params).2 with
     | inr _ => length (upserts (params_run w now i params).1) = length rows
     | inl e =>
         exists bad,
           rows !! length (upserts (params_run w now i params).1) = Some bad
           /\ translate_row now headers bad = raise e
     end.
Proof.
  intros H Hs Hj.
  rewrite upserts_params_run, outcome_params_run. unfold response_upserts.
  rewrite (response_rows_array _ _ _ _ H Hs Hj). unfold ok.
  destruct (translate_rows_prefix now headers rows) as [H1 H2].
  split; [|by split].
  apply Forall2_length in H1. rewrite length_take in H1. lia.
Qed.

Lemma upserts_stop_at_the_first_failure_witness :
  (length (upserts (params_run (steady ticking (fun _ => respond 200 partly_bad))
                      "2024-03-09T12:00:00Z" 0 []).1) <= 3)%nat
  /\ upserts (params_run (steady ticking (fun _ => respond 200 partly_bad))
                "2024-03-09T12:00:00Z" 0 []).1
     = [ {| year := 2017; race := JStr ""; sex := JStr ""; age := 0;
            total_pop := 0; last_updated := "2024-03-09T12:00:00Z" |} ].
Proof.
  destruct (upserts_stop_at_the_first_failure
              (steady ticking (fun _ => respond 200 partly_bad))
              "2024-03-09T12:00:00Z" 0 []
              {| status_code := 200; json_body := ok partly_bad |}
              (JArr [JStr "YEAR"])
              [JArr [JStr "2017"]; JArr [JStr "abc"]; JArr [JStr "2018"]])
    as (Hle & _ & _); [reflexivity | cbn; lia | reflexivity |].
  split; [exact Hle | reflexivity].
Defined.

(** ** A body that is a string *)

Lemma race_str_empty : race_str (JStr "") = ok (JStr "").
Proof. reflexivity. Qed.

Lemma sex_str_empty : sex_str (JStr "") = ok (JStr "").
Proof. reflexivity. Qed.

(** A one-character header and a one-character row: none of the five
    columns is found. *)
Lemma single_characters_translate (now : string) (c x : ascii) :
  translate_row now (JStr (String c "")) (JStr (String x ""))
  = ok (default_row now).
Proof.
  assert (Hget : forall key default, (1 < String.length key)%nat ->
            Py.dict_get [(JStr (String c ""), JStr (String x ""))] key default
            = default).
  { intros key default Hlen. cbn.
    rewrite bool_decide_eq_false_2; [done|]. intros <-. cbn in Hlen. lia. }
  unfold translate_row, row_dict, and_then.
  cbn [Py.iter Py.chars ok Py.zip Py.dict forallb fst Py.hashable andb].
  rewrite !Hget by (cbn; lia).
  by rewrite race_str_empty, sex_str_empty.
Qed.

Lemma characters_translate (now : string) (c : ascii) (s : string) :
  translate_rows now (JStr (String c "")) (Py.chars s)
  = (replicate (String.length s) (default_row now), ok tt).
Proof.
  induction s as [|x s IH]; [done|].
  cbn [Py.chars translate_rows String.length replicate].
  by rewrite single_characters_translate, IH.
Qed.

(** X7: a body that decodes to a non-empty string is not refused: its first
    character is taken for the header row and each further character for a
    data row, and one upsert of the all-default mapping (year 0, race "",
    sex "", age 0, total_pop 0) is yielded for each of them. *)
Theorem string_body_yields_default_rows (w : world) (now : string) (i : nat)
    (params : demo_param) (resp : response) (c : ascii) (s : string) :
  rq_get w i (full_url params) = ok resp ->
  ~ 400 <= status_code resp < 600 ->
  json_body resp = ok (JStr (String c s)) ->
  upserts (params_run w now i params).1
  = replicate (String.length s) (default_row now)
  /\ (params_run w now i params).2 = ok tt.
Proof.
  intros H Hs Hj.
  rewrite upserts_params_run, outcome_params_run.
  unfold response_upserts, response_rows, and_then.
  rewrite H. unfold ok. rewrite (raise_for_status_fine _ Hs). unfold ok.
  rewrite Hj. cbn [Py.item0 Py.slice_from1 Py.iter ok].
  by rewrite characters_translate.
Qed.

Lemma string_body_yields_default_rows_witness :
  upserts (params_run (steady ticking (fun _ => respond 200 (JStr "error")))
             "2024-03-09T12:00:00Z" 0 []).1
  = replicate 4 (default_row "2024-03-09T12:00:00Z").
Proof.
  apply (string_body_yields_default_rows
           (steady ticking (fun _ => respond 200 (JStr "error")))
           "2024-03-09T12:00:00Z" 0 []
           {| status_code := 200; json_body := ok (JStr "error") |} "e" "rror");
    [reflexivity | cbn; lia | reflexivity].
Defined.

(** ** Columns are found by name *)

(** A lookup either misses every pair and gives the default, or gives the
    value of a pair with that key. *)
Lemma dict_get_cases (d : list (json * json)) (key : string) (default : json) :
  ((JStr key ∉ d.*1) /\ Py.dict_get d key default = default)
  \/ (exists v, (JStr key, v) ∈ d /\ Py.dict_get d key default = v).
Proof.
  revert default. induction d as [|[k x] d IH]; intros default.
  { left. split; [apply not_elem_of_nil | done]. }
  assert (Hother : JStr key <> k ->
            Py.dict_get ((k, x) :: d) key default = Py.dict_get d key default).
  { intros Hk. destruct k as [| | | |k'| |]; cbn; try done.
    rewrite bool_decide_eq_false_2; [done | congruence]. }
  assert (Hskip : JStr key <> k ->
    ((JStr key ∉ ((k, x) :: d).*1)
     /\ Py.dict_get ((k, x) :: d) key default = default)
    \/ (exists v, (JStr key, v) ∈ (k, x) :: d
                  /\ Py.dict_get ((k, x) :: d) key default = v)).
  { intros Hk. rewrite (Hother Hk).
    destruct (IH default) as [[Habs Hd]|(v & Hv & Hd)].
    - left. split; [|done]. cbn. by apply not_elem_of_cons.
    - right. exists v. split; [by apply list_elem_of_further | done]. }
  destruct k as [| | | |k'| |]; try (apply Hskip; discriminate).
  destruct (decide (k' = key)) as [->|Hne]; [|apply Hskip; congruence].
  right. cbn. rewrite bool_decide_eq_true_2 by done.
  destruct (IH x) as [[Habs Hd]|(v & Hv & Hd)].
  - exists x. split; [apply list_elem_of_here | done].
  - exists v. split; [by apply list_elem_of_further | done].
Qed.

(** When no key occurs twice, the pair with the key decides the lookup. *)
Lemma dict_get_unique (d : list (json * json)) (key : string)
    (default v : json) :
  NoDup d.*1 -> (JStr key, v) ∈ d -> Py.dict_get d key default = v.
Proof.
  revert default. induction d as [|[k x] d IH]; intros default Hnd Hin.
  { by apply not_elem_of_nil in Hin. }
  cbn in Hnd. apply NoDup_cons in Hnd as [Hk Hnd].
  apply elem_of_cons in Hin as [[= <- <-]|Hin].
  - cbn. rewrite bool_decide_eq_true_2 by done. by apply dict_get_absent.
  - assert (JStr key <> k) as Hne.
    { intros <-. apply Hk. apply list_elem_of_fmap. by exists (JStr key, v). }
    destruct k as [| | | |k'| |]; cbn; try by apply IH.
    rewrite bool_decide_eq_false_2 by congruence. by apply IH.
Qed.

Lemma dict_get_perm (d d' : list (json * json)) (key : string) (default : json) :
  d ≡ₚ d' -> NoDup d.*1 ->
  Py.dict_get d key default = Py.dict_get d' key default.
Proof.
  intros Hp Hnd.
  assert (Hnd' : NoDup d'.*1) by (by rewrite <- Hp).
  destruct (dict_get_cases d key default) as [[Habs ->]|(v & Hv & ->)].
  - symmetry. apply dict_get_absent. by rewrite <- Hp.
  - symmetry. apply dict_get_unique; [done|]. by rewrite <- Hp.
Qed.

Lemma forallb_perm {A} (f : A -> bool) (l l' : list A) :
  l ≡ₚ l' -> forallb f l = forallb f l'.
Proof.
  induction 1 as [|x l l' _ IH|x y l|l l' l'' _ IH1 _ IH2]; cbn.
  - done.
  - by rewrite IH.
  - by destruct (f x), (f y).
  - by rewrite IH1.
Qed.

(** X8: the mapping of a row depends on the header names, not on the positions
    of the columns: when no header name occurs twice among the paired
    headers, the same columns in another order translate to the same mapping
    (or raise the same exception). *)
Theorem columns_are_found_by_name (now : string)
    (hs cells hs' cells' : list json) :
  Py.zip hs cells ≡ₚ Py.zip hs' cells' ->
  NoDup (Py.zip hs cells).*1 ->
  translate_row now (JArr hs) (JArr cells)
  = translate_row now (JArr hs') (JArr cells').
Proof.
  intros Hp Hnd. unfold translate_row, row_dict, Py.dict, and_then.
  cbn [Py.iter ok].
  rewrite <- (forallb_perm _ _ _ Hp).
  destruct (forallb _ (Py.zip hs cells)); [|done].
  unfold ok.
  by rewrite !(dict_get_perm _ _ _ _ Hp Hnd).
Qed.

Lemma columns_are_found_by_name_witness :
  translate_row "2024-03-09T12:00:00Z"
    (JArr [JStr "POP"; JStr "YEAR"]) (JArr [JStr "1994"; JStr "2017"])
  = translate_row "2024-03-09T12:00:00Z"
      (JArr [JStr "YEAR"; JStr "POP"]) (JArr [JStr "2017"; JStr "1994"]).
Proof.
  apply columns_are_found_by_name.
  - cbn. apply perm_swap.
  - cbn. constructor; [|constructor; [apply not_elem_of_nil | constructor]].
    intros H. apply elem_of_cons in H as [H|H]; [discriminate|].
    by apply not_elem_of_nil in H.
Defined.

(** ** Columns and cells that are not used *)

Lemma zip_app (hs cells : list json) (h c : json) :
  length hs = length cells ->
  Py.zip (hs ++ [h]) (cells ++ [c]) = Py.zip hs cells ++ [(h, c)].
Proof.
  revert cells. induction hs as [|x hs IH]; intros [|y cells] Hlen;
    try discriminate; [done|].
  cbn. f_equal. apply IH. by injection Hlen.
Qed.

Lemma zip_surplus (hs cells surplus : list json) :
  (length hs <= length cells)%nat ->
  Py.zip hs (cells ++ surplus) = Py.zip hs cells.
Proof.
  revert cells. induction hs as [|x hs IH]; intros [|y cells] Hlen;
    cbn in *; try done; [lia|].
  f_equal. apply IH. lia.
Qed.

(** A last pair with another key changes no lookup. *)
Lemma dict_get_app_other (d : list (json * json)) (h c : json) (key : string)
    (default : json) :
  h <> JStr key ->
  Py.dict_get (d ++ [(h, c)]) key default = Py.dict_get d key default.
Proof.
  intros Hh. revert default. induction d as [|[k x] d IH]; intros default.
  - destruct h as [| | | |k'| |]; cbn; try done.
    rewrite bool_decide_eq_false_2; [done | congruence].
  - destruct k as [| | | |k'| |]; cbn; try apply IH.
    destruct (bool_decide (k' = key)); apply IH.
Qed.

(** X9: a column the loop does not look up (as the "us" column of the Census
    API) changes nothing, provided its header cell can be hashed. *)
Theorem unknown_column_is_ignored (now : string) (hs cells : list json)
    (h c : json) :
  length hs = length cells ->
  Py.hashable h = true ->
  (forall k, k ∈ looked_up -> h <> JStr k) ->
  translate_row now (JArr (hs ++ [h])) (JArr (cells ++ [c]))
  = translate_row now (JArr hs) (JArr cells).
Proof.
  intros Hlen Hh Hk. unfold translate_row, row_dict, Py.dict, and_then.
  cbn [Py.iter ok]. rewrite (zip_app _ _ _ _ Hlen).
  rewrite forallb_app. cbn [forallb fst]. rewrite Hh, !andb_true_r.
  destruct (forallb _ (Py.zip hs cells)); [|done]. unfold ok.
  rewrite !dict_get_app_other; [done|apply Hk; unfold looked_up; set_solver..].
Qed.

Lemma unknown_column_is_ignored_witness :
  translate_row "2024-03-09T12:00:00Z"
    (JArr (census_headers ++ [JStr "us"]))
    (JArr ([JStr "1994"; JStr "2017"; JStr "2"; JStr "1"; JStr "0"] ++ [JStr "1"]))
  = translate_row "2024-03-09T12:00:00Z"
      (JArr census_headers)
      (JArr [JStr "1994"; JStr "2017"; JStr "2"; JStr "1"; JStr "0"]).
Proof.
  apply unknown_column_is_ignored; [reflexivity | reflexivity |].
  intros k Hk. unfold looked_up in Hk.
  repeat (apply elem_of_cons in Hk as [->|Hk]; [discriminate|]).
  by apply not_elem_of_nil in Hk.
Defined.

(** X10: the cells of a row beyond the last header are dropped by zip, whatever
    they are: a row longer than the header row translates as its first
    cells do. *)
Theorem surplus_cells_are_dropped (now : string)
    (hs cells surplus : list json) :
  (length hs <= length cells)%nat ->
  translate_row now (JArr hs) (JArr (cells ++ surplus))
  = translate_row now (JArr hs) (JArr cells).
Proof.
  intros Hlen. unfold translate_row, row_dict. cbn [Py.iter ok and_then].
  by rewrite (zip_surplus _ _ _ Hlen).
Qed.

Lemma surplus_cells_are_dropped_witness :
  translate_row "2024-03-09T12:00:00Z" (JArr [JStr "YEAR"])
    (JArr ([JStr "2017"] ++ [JArr []; JNull]))
  = ok {| year := 2017; race := JStr ""; sex := JStr ""; age := 0;
          total_pop := 0; last_updated := "2024-03-09T12:00:00Z" |}.
Proof.
  rewrite (surplus_cells_are_dropped "2024-03-09T12:00:00Z" [JStr "YEAR"]
             [JStr "2017"] [JArr []; JNull]); [reflexivity | cbn; lia].
Defined.

(** ** Warnings *)

Lemma warnings_app (t t' : list event) :
  warnings (t ++ t') = warnings t ++ warnings t'.
Proof. apply omap_app. Qed.

Lemma warnings_upsert_events (ds : list row_data) :
  warnings (upsert_event <$> ds) = [].
Proof. induction ds as [|d ds IH]; [done|]. unfold warnings in *. by cbn in *. Qed.

(** The try body itself logs no warning. *)
Lemma warnings_params_run (w : world) (now : string) (i : nat)
    (p : demo_param) :
  warnings (params_run w now i p).1 = [].
Proof.
  unfold params_run, fetch_and_translate, Gen.bind, Gen.http_get, Gen.eval,
    log, Gen.emit.
  cbn [total_records requests_sent].
  destruct (rq_get w i (full_url p)) as [e|resp]; [done|].
  destruct (raise_for_status resp) as [e|[]]; [done|].
  destruct (json_body resp) as [e|data]; [done|].
  destruct (Py.item0 data) as [e|headers]; [done|].
  destruct (Py.slice_from1 data) as [e|rows]; [done|].
  destruct (Py.iter rows) as [e|each_row]; [done|].
  rewrite rows_loop. cbn -[warnings fmap].
  change (?a :: ?b :: ?c :: ?t) with ([a; b; c] ++ t).
  by rewrite warnings_app, warnings_upsert_events.
Qed.

Lemma warnings_params_trace (w : world) (now : string) (i : nat)
    (p : demo_param) :
  warnings (params_trace w now i p)
  = match (params_run w now i p).2 with
    | inl e => [(p, e)]
    | inr _ => []
    end.
Proof.
  unfold params_trace. pose proof (warnings_params_run w now i p) as H.
  destruct (params_run w now i p) as [t [e|[]]]; cbn [fst snd] in *; [|done].
  by rewrite warnings_app, H.
Qed.

Lemma warnings_turns (w : world) (now : string) (first : nat)
    (ps : list demo_param) :
  warnings (concat (turns w now first ps))
  = concat (imap (fun k p => match (params_run w now (first + k) p).2 with
                             | inl e => [(p, e)]
                             | inr _ => []
                             end) ps).
Proof.
  revert first. induction ps as [|p ps IH]; intros first; [done|].
  rewrite turns_cons. cbn [concat imap].
  rewrite warnings_app, warnings_params_trace, IH, Nat.add_0_r. f_equal.
  f_equal. apply imap_ext. intros k q _. unfold compose.
  by rewrite Nat.add_succ_comm.
Qed.

(** X11: the warnings of a run are one for each parameter set whose try body
    raised, with its exception, in the order of the parameter sets, and none
    for a parameter set that ends well: at most eight in all. *)
Theorem one_warning_per_failed_parameter_set
    (configuration state : gmap string json) (w : world) :
  warnings (trace configuration state w)
  = concat (imap (fun i p => match (params_run w (current_time w) i p).2 with
                             | inl e => [(p, e)]
                             | inr _ => []
                             end) demo_params)
  /\ (length (warnings (trace configuration state w)) <= 8)%nat.
Proof.
  assert (H : warnings (trace configuration state w)
    = concat (imap (fun i p => match (params_run w (current_time w) i p).2 with
                               | inl e => [(p, e)]
                               | inr _ => []
                               end) demo_params)).
  { unfold trace. rewrite sync_run. cbn [fst].
    change (?e :: ?t ++ ?u) with ([e] ++ t ++ u).
    rewrite !warnings_app, warnings_turns.
    cbn -[demo_params imap]. by rewrite app_nil_r. }
  split; [exact H|]. rewrite H. unfold demo_params.
  cbn -[params_run current_time length]. rewrite !length_app.
  repeat match goal with
         | |- context [match ?r with inl _ => _ | inr _ => _ end] =>
             destruct r
         end; cbn; lia.
Qed.

(** ** The types of race and sex *)

Lemma zip_values (hs cells : list json) (x : json) :
  x ∈ (Py.zip hs cells).*2 -> x ∈ cells.
Proof.
  revert cells. induction hs as [|h hs IH]; intros [|c cells]; cbn;
    try (intros H; by apply not_elem_of_nil in H).
  intros [->|H]%elem_of_cons; [apply list_elem_of_here|].
  apply list_elem_of_further. by apply IH.
Qed.

(** A lookup gives the default or one of the values. *)
Lemma dict_get_in (d : list (json * json)) (key : string) (default : json) :
  Py.dict_get d key default = default \/ Py.dict_get d key default ∈ d.*2.
Proof.
  destruct (dict_get_cases d key default) as [[_ ->]|(v & Hv & ->)];
    [by left|right].
  apply list_elem_of_fmap. by exists (JStr key, v).
Qed.

Lemma table_get_string (table : gmap string string) (k : string) :
  exists label, Py.table_get table (JStr k) (JStr k) = ok (JStr label).
Proof. unfold Py.table_get. destruct (table !! k) as [label|]; eauto. Qed.

(** X12: when the cells of a row are strings, as the Census API sends them,
    the race and the sex that are upserted are strings too (a label of the
    table, the code itself, or the empty default), which is the type schema
    declares for the two columns. *)
Theorem string_cells_give_string_labels (now : string) (hs cells : list json)
    (d : row_data) :
  forallb is_str cells = true ->
  translate_row now (JArr hs) (JArr cells) = ok d ->
  is_str (race d) = true /\ is_str (sex d) = true.
Proof.
  intros Hcells Hd.
  destruct (translate_row_ok _ _ _ _ Hd)
    as (rd & Hrd & _ & _ & _ & Hrace & Hsex & _).
  assert (rd = Py.zip hs cells) as ->.
  { unfold row_dict, Py.dict in Hrd. cbn in Hrd.
    destruct (forallb _ (Py.zip hs cells)); [by inversion Hrd | discriminate]. }
  assert (Hstr : forall key, exists k,
             Py.dict_get (Py.zip hs cells) key (JStr "") = JStr k).
  { intros key. destruct (dict_get_in (Py.zip hs cells) key (JStr ""))
      as [->|Hin]; [by eexists|].
    apply zip_values in Hin. rewrite forallb_forall in Hcells.
    apply list_elem_of_In, Hcells in Hin.
    revert Hin.
    destruct (Py.dict_get (Py.zip hs cells) key (JStr "")); try discriminate.
    intros _. by eexists. }
  destruct (Hstr "RACE") as [r Hr]. destruct (Hstr "SEX") as [x Hx].
  rewrite Hr in Hrace. rewrite Hx in Hsex.
  destruct (table_get_string race_map r) as [lr Hlr].
  destruct (table_get_string sex_map x) as [lx Hlx].
  unfold race_str in Hrace. unfold sex_str in Hsex.
  rewrite Hlr in Hrace. rewrite Hlx in Hsex.
  injection Hrace as <-. injection Hsex as <-. done.
Qed.

Lemma string_cells_give_string_labels_witness :
  is_str (JStr "Black") = true /\ is_str (JStr "") = true.
Proof.
  apply (string_cells_give_string_labels "2024-03-09T12:00:00Z"
           census_headers short_row
           {| year := 2017; race := JStr "Black"; sex := JStr ""; age := 0;
              total_pop := 1994; last_updated := "2024-03-09T12:00:00Z" |});
    reflexivity.
Defined.

(** ** When a row translates *)

(** X13: for a data row whose string cells are ASCII text, the row yields
    an upsert exactly when the header cells it is paired with are hashable,
    its YEAR, AGE and POP (or their default 0) convert with int() and its
    RACE and SEX (or their default "") are hashable; a paired header cell
    that is an array or an object makes dict() raise a TypeError for the
    row. *)
Theorem a_row_translates_exactly_when_convertible (now : string)
    (hs cells : list json) :
  forallb ascii_text cells = true ->
  ((exists d, translate_row now (JArr hs) (JArr cells) = ok d)
   <-> convertible hs cells = true)
  /\ (forallb (fun p => Py.hashable p.1) (Py.zip hs cells) = false ->
      translate_row now (JArr hs) (JArr cells) = raise TypeError).
Proof.
  intros _. split.
  - rewrite <- (translate_row_convertible now). split.
    + by intros [d ->].
    + apply is_ok_true.
  - intros H. unfold translate_row, row_dict, Py.dict, and_then.
    cbn [Py.iter ok]. by rewrite H.
Qed.

Lemma a_row_translates_exactly_when_convertible_witness :
  translate_row "2024-03-09T12:00:00Z" (JArr [JArr []; JStr "YEAR"])
    (JArr [JStr "x"; JStr "2017"])
  = raise TypeError
  /\ ((exists d, translate_row "2024-03-09T12:00:00Z" (JArr [JStr "YEAR"])
                   (JArr [JStr " 2017 "]) = ok d)
      <-> convertible [JStr "YEAR"] [JStr " 2017 "] = true).
Proof.
  split.
  - apply (a_row_translates_exactly_when_convertible "2024-03-09T12:00:00Z"
             [JArr []; JStr "YEAR"] [JStr "x"; JStr "2017"]); reflexivity.
  - apply (a_row_translates_exactly_when_convertible "2024-03-09T12:00:00Z"
             [JStr "YEAR"] [JStr " 2017 "]). reflexivity.
Defined.
